(** * PittAPI course module: a shallow embedding of [PittAPI/course.py]

    The embedding follows the Python source function by function.
    Python exceptions are values of [exn] carried by [result]; Python
    strings are [string] (sequences of 8-bit characters, so the regular
    expression class [\d] is the ten ASCII digits); a [dict] whose
    insertion order is observable is an association list. *)

From Stdlib Require Import String Ascii List ZArith Lia Bool Arith PeanoNat.
From Stdlib Require Import DecimalString.
Import ListNotations.
Open Scope string_scope.
Open Scope list_scope.

(** ** Exceptions and results *)

Inductive exn : Type :=
| ValueError
| KeyError
| IndexError
| AttributeError
| TypeError
| RequestException.

Inductive result (A : Type) : Type :=
| Ok (a : A)
| Raise (e : exn).
Arguments Ok {A} a.
Arguments Raise {A} e.

Definition bind {A B : Type} (r : result A) (k : A -> result B) : result B :=
  match r with
  | Ok a => k a
  | Raise e => Raise e
  end.

Notation "x <- c ;; k" := (bind c (fun x => k))
  (at level 61, c at next level, right associativity).
Notation "' pat <- c ;; k" := (bind c (fun x => match x with pat => k end))
  (at level 61, pat pattern, c at next level, right associativity).

(** ** Python string and list primitives *)

Module Py.

(** [xs[i]] for a non-negative constant index. *)
Definition index {A : Type} (xs : list A) (i : nat) : result A :=
  match nth_error xs i with
  | Some x => Ok x
  | None => Raise IndexError
  end.

(** [s[lo:hi]] for non-negative constant bounds: never fails, clips. *)
Definition slice (s : string) (lo hi : nat) : string :=
  substring lo (hi - lo) s.

(** Worker of [split]: walks [s]; [skip] counts the characters of a
    separator occurrence still to be dropped, [cur] is the piece being
    accumulated. *)
Fixpoint split_aux (sep s : string) (skip : nat) (cur : string) : list string :=
  match s with
  | EmptyString => [cur]
  | String c s' =>
      match skip with
      | S k => split_aux sep s' k cur
      | O =>
          if prefix sep s
          then cur :: split_aux sep s' (String.length sep - 1) EmptyString
          else split_aux sep s' 0 (cur ++ String c EmptyString)%string
      end
  end.

(** [s.split(sep)] for a non-empty separator. *)
Definition split (s sep : string) : list string := split_aux sep s 0 EmptyString.

(** Characters removed by [str.strip()] among the 7-bit ones. *)
Definition isspace (c : ascii) : bool :=
  let n := nat_of_ascii c in
  ((n =? 32) || ((9 <=? n) && (n <=? 13)) || ((28 <=? n) && (n <=? 31)))%nat.

Fixpoint lstrip (s : string) : string :=
  match s with
  | EmptyString => EmptyString
  | String c s' => if isspace c then lstrip s' else s
  end.

Fixpoint rstrip (s : string) : string :=
  match s with
  | EmptyString => EmptyString
  | String c s' =>
      match rstrip s' with
      | EmptyString => if isspace c then EmptyString else String c EmptyString
      | r => String c r
      end
  end.

Definition strip (s : string) : string := rstrip (lstrip s).

(** ['0' * n] *)
Fixpoint zeros (n : nat) : string :=
  match n with
  | O => EmptyString
  | S k => String "0" (zeros k)
  end.

(** [str(z)] for an [int]. *)
Definition str_of_int (z : Z) : string := NilZero.string_of_int (Z.to_int z).

Definition isdigit (c : ascii) : bool :=
  let n := nat_of_ascii c in ((48 <=? n) && (n <=? 57))%nat.

(** [a, b = xs]: exactly two items, otherwise ValueError. *)
Definition unpack2 {A : Type} (xs : list A) : result (A * A) :=
  match xs with
  | [a; b] => Ok (a, b)
  | _ => Raise ValueError
  end.

(** [k in d] and [d[k]] on a dict kept as an association list. *)
Definition contains {V : Type} (d : list (string * V)) (k : string) : bool :=
  existsb (fun kv => String.eqb (fst kv) k) d.

Definition getitem {V : Type} (d : list (string * V)) (k : string) : result V :=
  match find (fun kv => String.eqb (fst kv) k) d with
  | Some kv => Ok (snd kv)
  | None => Raise KeyError
  end.

(** [sub in s] on strings. *)
Fixpoint str_contains (sub s : string) : bool :=
  prefix sub s ||
  match s with
  | EmptyString => false
  | String _ s' => str_contains sub s'
  end.

(** A [for] loop whose body may raise: the body is a step on the loop's
    variables. *)
Fixpoint for_each {A S : Type} (body : S -> A -> result S) (xs : list A) (st : S)
  : result S :=
  match xs with
  | [] => Ok st
  | x :: xs' => st' <- body st x ;; for_each body xs' st'
  end.

(** [c.upper()] for one 8-bit character (code points 0 to 255): [a]-[z]
    and the letters 224-254 other than the division sign 247 lose 32, the
    sharp s (223) becomes ["SS"], every other character is kept. The micro
    sign (181) and the y with diaeresis (255) have their capitals above 255
    (U+039C, U+0178): [None] stands for a result outside the alphabet. *)
Definition upper_char (c : ascii) : option string :=
  let n := nat_of_ascii c in
  if ((97 <=? n) && (n <=? 122))%nat
  then Some (String (ascii_of_nat (n - 32)) EmptyString)
  else if (n =? 223)%nat then Some "SS"
  else if ((224 <=? n) && (n <=? 254) && negb (n =? 247))%nat
  then Some (String (ascii_of_nat (n - 32)) EmptyString)
  else if ((n =? 181) || (n =? 255))%nat then None
  else Some (String c EmptyString).

(** [s.upper()]: the characters are raised one by one; [None] when the
    result holds a character above 255. *)
Fixpoint upper (s : string) : option string :=
  match s with
  | EmptyString => Some EmptyString
  | String c s' =>
      match upper_char c, upper s' with
      | Some u, Some r => Some (u ++ r)%string
      | _, _ => None
      end
  end.

(** [x in xs] for a list of strings. *)
Definition str_in (x : string) (xs : list string) : bool :=
  existsb (String.eqb x) xs.

End Py.

(** Arguments of the validators and of [__getitem__]: the Python values the
    functions distinguish with [isinstance]. *)
Inductive pyval : Type :=
| PyInt (z : Z)
| PyStr (s : string)
| PyNone.

Definition LF : string := String (ascii_of_nat 10) EmptyString.

(** [extract = lambda s: s.split(': ')[1]] *)
Definition extract (s : string) : result string :=
  Py.index (Py.split s ": ") 1.

(** ** Validators *)

(** [re.compile('2\d\d[147]').match(term)]: the pattern is anchored at the
    start of [term] only. *)
Definition valid_terms_match (term : string) : bool :=
  match term with
  | String c0 (String c1 (String c2 (String c3 _))) =>
      Ascii.eqb c0 "2" && Py.isdigit c1 && Py.isdigit c2
      && (Ascii.eqb c3 "1" || Ascii.eqb c3 "4" || Ascii.eqb c3 "7")
  | _ => false
  end.

Definition _validate_term (term : pyval) : result string :=
  let term := match term with PyInt z => PyStr (Py.str_of_int z) | t => t end in
  match term with
  | PyStr s => if valid_terms_match s then Ok s else Raise ValueError
  | _ => Raise TypeError
  end.

Definition _validate_course (course : pyval) : result string :=
  let course := match course with PyInt z => PyStr (Py.str_of_int z) | c => c end in
  match course with
  | PyStr s =>
      let course_length := String.length s in
      if (course_length <? 4)%nat then Ok (Py.zeros (4 - course_length) ++ s)%string
      else if (4 <? course_length)%nat then Raise ValueError
      else Ok s
  | _ => Raise TypeError
  end.


Definition SUBJECTS : list string :=
  ["ADMJ"; "ADMPS"; "AFRCNA"; "AFROTC"; "ANTH"; "ARABIC"; "ARTSC"; "ASL";
    "ASTRON"; "ATHLTR"; "BACC"; "BCHS"; "BECN"; "BFAE"; "BFIN"; "BHRM";
    "BIND"; "BIOENG"; "BIOETH"; "BIOINF"; "BIOSC"; "BIOST"; "BMIS"; "BMKT";
    "BOAH"; "BORG"; "BQOM"; "BSEO"; "BSPP"; "BUS"; "BUSACC"; "BUSADM";
    "BUSBIS"; "BUSECN"; "BUSENV"; "BUSERV"; "BUSFIN"; "BUSHRM"; "BUSMKT";
    "BUSORG"; "BUSQOM"; "BUSSCM"; "BUSSPP"; "CDACCT"; "CDENT"; "CEE";
    "CGS"; "CHE"; "CHEM"; "CHIN"; "CLASS"; "CLRES"; "CLST"; "CMME";
    "CMMUSIC"; "CMPBIO"; "CMPINF"; "COE"; "COEA"; "COEE"; "COMMRC"; "CS";
    "CSD"; "DENHYG"; "DENT"; "DIASCI"; "DMED"; "DSANE"; "DUPOSC"; "EAS";
    "ECE"; "ECON"; "EDUC"; "EM"; "ENDOD"; "ENGCMP"; "ENGFLM"; "ENGLIT";
    "ENGR"; "ENGSCI"; "ENGWRT"; "ENRES"; "EOH"; "EPIDEM"; "FACDEV";
    "FILMG"; "FILMST"; "FP"; "FR"; "FTADMA"; "FTDA"; "FTDB"; "FTDC";
    "FTDJ"; "FTDR"; "GEOL"; "GER"; "GERON"; "GREEK"; "GREEKM"; "GSWS";
    "HAA"; "HEBREW"; "HIM"; "HINDI"; "HIST"; "HONORS"; "HPA"; "HPM"; "HPS";
    "HRS"; "HUGEN"; "IDM"; "IE"; "IL"; "IMB"; "INFSCI"; "INTBP"; "IRISH";
    "ISB"; "ISSP"; "ITAL"; "JPNSE"; "JS"; "KOREAN"; "LATIN"; "LAW"; "LCTL";
    "LDRSHP"; "LEGLST"; "LING"; "LIS"; "LSAP"; "MATH"; "ME"; "MED";
    "MEDEDU"; "MEMS"; "MILS"; "MOLBPH"; "MSBMS"; "MSCBIO"; "MSCBMP";
    "MSCMP"; "MSE"; "MSMBPH"; "MSMGDB"; "MSMI"; "MSMPHL"; "MSMVM";
    "MSNBIO"; "MUSIC"; "NEURO"; "NPHS"; "NROSCI"; "NUR"; "NURCNS"; "NURNM";
    "NURNP"; "NURSAN"; "NURSP"; "NUTR"; "ODO"; "ORBIOL"; "ORSUR"; "OT";
    "PAS"; "PEDC"; "PEDENT"; "PEDS"; "PERIO"; "PERS"; "PETE"; "PHARM";
    "PHIL"; "PHYS"; "PIA"; "POLISH"; "PORT"; "PROSTH"; "PS"; "PSY"; "PSYC";
    "PSYED"; "PT"; "PUBHLT"; "PUBSRV"; "PWEA"; "QUECH"; "REHSCI"; "REL";
    "RELGST"; "RESTD"; "RUSS"; "SA"; "SERCRO"; "SLAV"; "SLOVAK"; "SOC";
    "SOCWRK"; "SPAN"; "STAT"; "SWAHIL"; "SWBEH"; "SWCED"; "SWCOSA"; "SWE";
    "SWGEN"; "SWINT"; "SWRES"; "SWWEL"; "TELCOM"; "THEA"; "TURKSH";
    "UKRAIN"; "URBNST"; "VIET" ].

Definition CLASS_SEARCH_URL : string :=
  "https://psmobile.pitt.edu/app/catalog/classSearch".

Definition CLASS_SEARCH_API_URL : string :=
  "https://psmobile.pitt.edu/app/catalog/getClassSearch".

(** An upper-cased string that holds a character above 255 is none of
    the listed codes, which are 8-bit strings. *)
Definition _validate_subject (subject : string) : result string :=
  match Py.upper subject with
  | Some subject =>
      if Py.str_in subject SUBJECTS then Ok subject else Raise ValueError
  | None => Raise ValueError
  end.

(** ** Documents *)

(** A node of a parsed document: a [NavigableString] (a [str]) or a tag;
    [Tag] is the representation of [bs4.element.Tag]. *)
Inductive PageElement (Tag : Type) : Type :=
| NavigableString (s : string)
| Element (t : Tag).
Arguments NavigableString {Tag} s.
Arguments Element {Tag} t.

(** ** Data model

    The classes of the module; [datetime], [Tag] and [Server] are the
    representations of [datetime.datetime], [bs4.element.Tag] and the
    remote server. *)

(** What a child reads through its reference to a [PittSubject]. *)
Record SubjectRef : Type := mkSubjectRef {
  ref_subject : string;
  ref_term : string
}.

(** The attributes of a [PittCourse] other than its section list; also
    what a section reads through its reference to its course. *)
Record CourseHead : Type := mkCourseHead {
  c_parent_subject : option SubjectRef;
  c_term : option string;
  c_subject : option string;
  c_number : string
}.

(** The attributes set from [class_data]; they are set together or not
    at all. *)
Record ClassFields (datetime : Type) : Type := mkClassFields {
  section : string;
  section_type : string;
  number : string;
  days : option (list string);
  times : option (list string);
  room : string;
  instructor : string;
  start_date : datetime;
  end_date : datetime
}.
Arguments mkClassFields {datetime}.
Arguments section {datetime}.
Arguments section_type {datetime}.
Arguments number {datetime}.
Arguments days {datetime}.
Arguments times {datetime}.
Arguments room {datetime}.
Arguments instructor {datetime}.
Arguments start_date {datetime}.
Arguments end_date {datetime}.

(** A value of the extra-details dict: a node reached by navigation,
    Python's [None], or a plain [str]. *)
Inductive ExtraValue (Tag : Type) : Type :=
| XNone
| XNode (e : PageElement Tag)
| XStr (s : string).
Arguments XNone {Tag}.
Arguments XNode {Tag} e.
Arguments XStr {Tag} s.

Definition ExtraMap (Tag : Type) : Type := list (string * ExtraValue Tag).

Record PittSection (datetime Tag : Type) : Type := mkPittSection {
  s_parent_subject : option SubjectRef;
  s_parent_course : option CourseHead;
  s_term : option string;
  s_subject : option string;
  s_course_number : option string;
  class_fields : option (ClassFields datetime);
  url : string;
  _extra : option (ExtraMap Tag)
}.
Arguments mkPittSection {datetime Tag}.
Arguments s_parent_subject {datetime Tag}.
Arguments s_parent_course {datetime Tag}.
Arguments s_term {datetime Tag}.
Arguments s_subject {datetime Tag}.
Arguments s_course_number {datetime Tag}.
Arguments class_fields {datetime Tag}.
Arguments url {datetime Tag}.
Arguments _extra {datetime Tag}.

Record PittCourse (datetime Tag : Type) : Type := mkPittCourse {
  head : CourseHead;
  sections : list (PittSection datetime Tag)
}.
Arguments mkPittCourse {datetime Tag}.
Arguments head {datetime Tag}.
Arguments sections {datetime Tag}.

Record PittSubject (datetime Tag : Type) : Type := mkPittSubject {
  subject : string;
  term : string;
  _courses : list (string * PittCourse datetime Tag)
}.
Arguments mkPittSubject {datetime Tag}.
Arguments subject {datetime Tag}.
Arguments term {datetime Tag}.
Arguments _courses {datetime Tag}.

(** The world outside the process: the GET requests issued so far, oldest
    first, and the server. *)
Record World (Server : Type) : Type := mkWorld {
  requests : list string;
  server : Server
}.
Arguments mkWorld {Server}.
Arguments requests {Server}.
Arguments server {Server}.

(** The dict built by [PittSection.to_dict]; [d_extra] is [None] when the
    key ['extra'] is absent. *)
Record SectionDict (datetime Tag : Type) : Type := mkSectionDict {
  d_subject : option string;
  d_term : option string;
  d_days : option (list string);
  d_times : option (list string);
  d_room : string;
  d_instructor : string;
  d_start_date : datetime;
  d_end_date : datetime;
  d_section : string;
  d_section_type : string;
  d_number : string;
  d_extra : option (ExtraMap Tag)
}.
Arguments mkSectionDict {datetime Tag}.
Arguments d_subject {datetime Tag}.
Arguments d_term {datetime Tag}.
Arguments d_days {datetime Tag}.
Arguments d_times {datetime Tag}.
Arguments d_room {datetime Tag}.
Arguments d_instructor {datetime Tag}.
Arguments d_start_date {datetime Tag}.
Arguments d_end_date {datetime Tag}.
Arguments d_section {datetime Tag}.
Arguments d_section_type {datetime Tag}.
Arguments d_number {datetime Tag}.
Arguments d_extra {datetime Tag}.

(** ** The entity tree and the extraction engine *)

(** *** External capabilities

    [datetime], [bs4] and [requests] are libraries the module imports;
    what the module calls on them is taken as given. *)

Class Env : Type := {
  datetime : Type;
  (** [datetime.strptime(s, '%m/%d/%Y')]; [None] stands for its ValueError. *)
  strptime : string -> option datetime;

  (** [bs4.element.Tag] with the two members the module reads on it. *)
  Tag : Type;
  attrs : Tag -> list (string * string);
  text : Tag -> string;

  (** [BeautifulSoup(text, 'lxml').find('div', {'class': 'primary-head'})
      .parent.contents]; AttributeError when [find] returns [None]. *)
  primary_head_parent_contents : string -> result (list (PageElement Tag));

  (** [list(BeautifulSoup(text, 'lxml').find('div', {'class':
      'section-content clearfix'}).next_siblings)]. *)
  section_content_next_siblings : string -> result (list (PageElement Tag));

  (** [x.find('div', {'class': 'pull-right'}).next_element.next_element
      .next_element]: a node, or Python's [None]. *)
  pull_right_next3 : PageElement Tag -> result (option (PageElement Tag));

  (** [.text] read on a [NavigableString]. *)
  navigable_string_text : string -> result string;

  (** The remote server: [respond url] is the body of the response to a GET
      of [url] (or the exception [requests] raises) and the server's next
      state. *)
  Server : Type;
  respond : string -> Server -> result string * Server
}.

Section Course.

Context {env : Env}.

Local Abbreviation PageElement := (PageElement Tag).
Local Abbreviation ClassFields := (ClassFields datetime).
Local Abbreviation ExtraValue := (ExtraValue Tag).
Local Abbreviation ExtraMap := (ExtraMap Tag).
Local Abbreviation PittSection := (PittSection datetime Tag).
Local Abbreviation PittCourse := (PittCourse datetime Tag).
Local Abbreviation PittSubject := (PittSubject datetime Tag).
Local Abbreviation World := (World Server).
Local Abbreviation SectionDict := (SectionDict datetime Tag).

(** *** Reading through the back-references *)

Definition ref_of (self : PittSubject) : SubjectRef :=
  mkSubjectRef (subject self) (term self).

(** *** PittSection.__init__ *)

Definition strptime_mdY (s : string) : result datetime :=
  match strptime s with
  | Some d => Ok d
  | None => Raise ValueError
  end.

(** [[days[i * 2:(i * 2) + 2] for i in range(len(days) // 2)]] *)
Definition day_chunks (days : string) : list string :=
  map (fun i => Py.slice days (i * 2) (i * 2 + 2))
      (seq 0 (String.length days / 2)).

(** Lines 173-180 (and 246-253): the days/times field. *)
Definition days_and_times (line2 : string)
  : result (option (list string) * option (list string)) :=
  days_times <- extract line2 ;;
  if negb (String.eqb days_times "TBA") then
    let days_times := Py.split days_times " - " in
    dt0 <- Py.index days_times 0 ;;
    '(days, times) <- Py.unpack2 (Py.split dt0 " ") ;;
    let days := day_chunks days in
    dt1 <- Py.index days_times 1 ;;
    Ok (Some days, Some ([times] ++ [dt1]))
  else Ok (None, None).

(** Lines 169-187, repeated as lines 242-260: the attributes read from
    the lines of a link node. *)
Definition class_data_fields (class_data : list string) : result ClassFields :=
  line0 <- Py.index class_data 0 ;;
  info <- extract line0 ;;
  let class_info := Py.split info " " in
  ci0 <- Py.index class_info 0 ;;
  '(section, section_type) <- Py.unpack2 (Py.split ci0 "-") ;;
  ci1 <- Py.index class_info 1 ;;
  let number := Py.slice ci1 1 6 in
  line2 <- Py.index class_data 2 ;;
  '(days, times) <- days_and_times line2 ;;
  line3 <- Py.index class_data 3 ;;
  room <- extract line3 ;;
  line4 <- Py.index class_data 4 ;;
  instructor <- extract line4 ;;
  line5 <- Py.index class_data 5 ;;
  dates <- extract line5 ;;
  let date := Py.split dates " - " in
  d0 <- Py.index date 0 ;;
  start_date <- strptime_mdY d0 ;;
  d1 <- Py.index date 1 ;;
  end_date <- strptime_mdY d1 ;;
  Ok (mkClassFields section section_type number days times room instructor
        start_date end_date).

Definition PittSection_init (parent : option SubjectRef) (course : option CourseHead)
    (class_section_url : string) (class_data : option (list string))
    (extra : option ExtraMap) (term : option string) : result PittSection :=
  fields <- match class_data with
            | Some cd => f <- class_data_fields cd ;; Ok (Some f)
            | None => Ok None
            end ;;
  Ok (mkPittSection parent course term None None fields class_section_url extra).

(** *** PittCourse *)

Definition PittCourse_init (parent : option SubjectRef) (course_number : string)
    (term subject : option string) : PittCourse :=
  mkPittCourse (mkCourseHead parent term subject course_number) [].

(** [course.append(section)] on the course stored under [key]. *)
Definition append_at (key : string) (sec : PittSection)
    (courses : list (string * PittCourse)) : list (string * PittCourse) :=
  map (fun kv =>
         if String.eqb (fst kv) key
         then (fst kv, mkPittCourse (head (snd kv)) (sections (snd kv) ++ [sec]))
         else kv)
      courses.

(** *** The scan shared by the three [parse_webpage] methods *)

(** [child != i], for [i] a [str]. *)
Definition element_ne (child : PageElement) (i : string) : bool :=
  match child with
  | NavigableString s => negb (String.eqb s i)
  | Element _ => true
  end.

(** [any(child != i for i in ['\n', ' '])] *)
Definition not_blank (child : PageElement) : bool :=
  existsb (element_ne child) [LF; " "].

(** [child.text.strip().split('\n')] *)
Definition class_data_of (child : Tag) : list string :=
  Py.split (Py.strip (text child)) LF.

(** *** PittSubject *)

Definition PittSubject_init (subject term : string) : PittSubject :=
  mkPittSubject subject term [].

(** The loop variables of [PittSubject.parse_webpage]: the dict
    [self._courses] and the local [course], which is [None] or the entry
    of [self._courses] it was last read from. *)
Definition SubjectScan : Type :=
  (list (string * PittCourse) * option CourseHead)%type.

Definition PittSubject_parse_child (self : SubjectRef) (st : SubjectScan)
    (child : PageElement) : result SubjectScan :=
  let '(courses, course) := st in
  if not_blank child then
    match child with
    | Element child =>
        if negb (Py.contains (attrs child) "class") then
          class_sections_url <- Py.getitem (attrs child) "href" ;;
          match course with
          | None => Raise AttributeError
          | Some c =>
              sec <- PittSection_init (Some self) (Some c) class_sections_url
                       (Some (class_data_of child)) None None ;;
              Ok (append_at (c_number c) sec courses, course)
          end
        else if negb (String.eqb (text child) "") then
          let class_description := text child in
          number <- Py.index (Py.split class_description " - ") 0 ;;
          number <- Py.index (Py.split number " ") 1 ;;
          let courses :=
            if negb (Py.contains courses number)
            then courses ++ [(number, PittCourse_init (Some self) number None None)]
            else courses in
          c <- Py.getitem courses number ;;
          Ok (courses, Some (head c))
        else Ok st
    | NavigableString _ => Ok st
    end
  else Ok st.

Definition PittSubject_parse_webpage (self : PittSubject) (resp_text : string)
  : result PittSubject :=
  classes <- primary_head_parent_contents resp_text ;;
  '(courses, _) <- Py.for_each (PittSubject_parse_child (ref_of self)) classes
                     (_courses self, None) ;;
  Ok (mkPittSubject (subject self) (term self) courses).

(** [PittSubject.courses] *)
Definition courses (self : PittSubject) : list string :=
  map fst (_courses self).

(** [PittSubject.__getitem__]; the inner [None] is Python's. *)
Definition PittSubject_getitem (self : PittSubject) (item : pyval)
  : result (option PittCourse) :=
  match item with
  | PyStr _ =>
      item <- _validate_course item ;;
      if Py.contains (_courses self) item
      then c <- Py.getitem (_courses self) item ;; Ok (Some c)
      else Raise ValueError
  | _ => Ok None
  end.

(** *** PittCourse.parse_webpage *)

Definition PittCourse_parse_child (self : CourseHead) (secs : list PittSection)
    (child : PageElement) : result (list PittSection) :=
  if not_blank child then
    match child with
    | Element child =>
        if negb (Py.contains (attrs child) "class") then
          class_sections_url <- Py.getitem (attrs child) "href" ;;
          sec <- PittSection_init (c_parent_subject self) (Some self)
                   class_sections_url (Some (class_data_of child)) None None ;;
          Ok (secs ++ [sec])
        else Ok secs
    | NavigableString _ => Ok secs
    end
  else Ok secs.

Definition PittCourse_parse_webpage (self : PittCourse) (resp_text : string)
  : result PittCourse :=
  classes <- primary_head_parent_contents resp_text ;;
  secs <- Py.for_each (PittCourse_parse_child (head self)) classes (sections self) ;;
  Ok (mkPittCourse (head self) secs).

(** *** PittSection.parse_webpage

    An exception leaves the method with the object half updated; callers
    in the module let it propagate and drop the object, so only the
    completed update is kept here. *)

Definition PittSection_parse_child (self : PittSection) (child : PageElement)
  : result PittSection :=
  if not_blank child then
    match child with
    | Element child =>
        if negb (Py.contains (attrs child) "class") then
          href <- Py.getitem (attrs child) "href" ;;
          let class_data := class_data_of child in
          fields <- class_data_fields class_data ;;
          Ok (mkPittSection (s_parent_subject self) (s_parent_course self)
                (s_term self) (s_subject self) (s_course_number self)
                (Some fields) href (_extra self))
        else if negb (String.eqb (text child) "") then
          let class_description := text child in
          data <- Py.index (Py.split class_description " - ") 0 ;;
          '(subject, number) <- Py.unpack2 (Py.split data " ") ;;
          Ok (mkPittSection (s_parent_subject self) (s_parent_course self)
                (s_term self) (Some subject) (Some number)
                (class_fields self) (url self) (_extra self))
        else Ok self
    | NavigableString _ => Ok self
    end
  else Ok self.

Definition PittSection_parse_webpage (self : PittSection) (resp_text : string)
  : result PittSection :=
  classes <- primary_head_parent_contents resp_text ;;
  Py.for_each PittSection_parse_child classes self.

(** *** Attribute resolution through the back-references *)

Definition PittCourse_term (c : CourseHead) : option string :=
  match c_parent_subject c with
  | Some p => Some (ref_term p)
  | None => c_term c
  end.

Definition PittCourse_subject (c : CourseHead) : option string :=
  match c_parent_subject c with
  | Some p => Some (ref_subject p)
  | None => c_subject c
  end.

Definition PittSection_term (self : PittSection) : option string :=
  match s_parent_subject self with
  | Some p => Some (ref_term p)
  | None =>
      match s_parent_course self with
      | Some c => PittCourse_term c
      | None => s_term self
      end
  end.

Definition PittSection_subject (self : PittSection) : option string :=
  match s_parent_subject self with
  | Some p => Some (ref_subject p)
  | None =>
      match s_parent_course self with
      | Some c => PittCourse_subject c
      | None => s_subject self
      end
  end.

(** *** The network and the extra-details cache *)

(** [requests.get(url).text] *)
Definition requests_get (url : string) (w : World) : result string * World :=
  let (r, sv) := respond url (server w) in
  (r, mkWorld (requests w ++ [url]) sv).

Definition set_extra (self : PittSection) (e : ExtraMap) : PittSection :=
  mkPittSection (s_parent_subject self) (s_parent_course self) (s_term self)
    (s_subject self) (s_course_number self) (class_fields self) (url self)
    (Some e).

(** [extract_data = lambda x: x.find(...).next_element.next_element.next_element] *)
Definition extract_data (x : PageElement) : result ExtraValue :=
  o <- pull_right_next3 x ;;
  match o with
  | Some e => Ok (XNode e)
  | None => Ok XNone
  end.

(** [extract(v)] on a value returned by [extract_data]. *)
Definition extract_value (v : ExtraValue) : result string :=
  match v with
  | XNode (NavigableString s) => extract s
  | XStr s => extract s
  | XNode (Element _) => Raise TypeError
  | XNone => Raise AttributeError
  end.

(** [point.text] *)
Definition element_text (point : PageElement) : result string :=
  match point with
  | Element t => Ok (text t)
  | NavigableString s => navigable_string_text s
  end.

(** Lines 219-227: the dict display assigned to [self._extra], together
    with the filtered sibling list it was read from. *)
Definition fetched_extra (resp_text : string)
  : result (list PageElement * ExtraMap) :=
  data <- section_content_next_siblings resp_text ;;
  let data := filter (fun point => element_ne point LF) data in
  d2 <- Py.index data 2 ;;
  units <- extract_data d2 ;;
  d4 <- Py.index data 4 ;;
  description <- extract_data d4 ;;
  d5 <- Py.index data 5 ;;
  v5 <- extract_data d5 ;;
  preq <- extract_value v5 ;;
  Ok (data, [("units", units); ("description", description); ("preq", XStr preq)]).

(** Lines 228-229: the optional fourth key, added to the dict
    [self._extra] already refers to. *)
Definition with_class_attributes (data : list PageElement) (extra : ExtraMap)
  : result ExtraMap :=
  d6 <- Py.index data 6 ;;
  t6 <- element_text d6 ;;
  if Py.str_contains "Class Attributes" t6 then
    v6 <- extract_data d6 ;;
    Ok (extra ++ [("class_attributes", v6)])
  else Ok extra.

(** The property [PittSection.extra_details]: its value or exception, the
    section afterwards and the world afterwards. *)
Definition extra_details (self : PittSection) (w : World)
  : result ExtraMap * PittSection * World :=
  match _extra self with
  | Some e => (Ok e, self, w)
  | None =>
      let (resp, w1) := requests_get (url self) w in
      match (t <- resp ;; fetched_extra t) with
      | Raise e => (Raise e, self, w1)
      | Ok (data, extra) =>
          match with_class_attributes data extra with
          | Raise e => (Raise e, set_extra self extra, w1)
          | Ok extra' => (Ok extra', set_extra self extra', w1)
          end
      end
  end.

(** *** to_dict *)

Definition section_data (self : PittSection) (f : ClassFields)
    (extra : option ExtraMap) : SectionDict :=
  mkSectionDict (PittSection_subject self) (PittSection_term self)
    (days f) (times f) (room f) (instructor f) (start_date f) (end_date f)
    (section f) (section_type f) (number f) extra.

Definition PittSection_to_dict (extra_flag : bool) (self : PittSection) (w : World)
  : result SectionDict * PittSection * World :=
  match class_fields self with
  | None => (Raise AttributeError, self, w)
  | Some f =>
      if extra_flag then
        let '(r, self', w') := extra_details self w in
        (e <- r ;; Ok (section_data self f (Some e)), self', w')
      else (Ok (section_data self f None), self, w)
  end.

(** [[section.to_dict(extra_details=extra_details) for section in sections]] *)
Fixpoint sections_to_dict (extra_flag : bool) (secs : list PittSection) (w : World)
  : result (list SectionDict) * list PittSection * World :=
  match secs with
  | [] => (Ok [], [], w)
  | s :: rest =>
      let '(r, s', w1) := PittSection_to_dict extra_flag s w in
      match r with
      | Raise e => (Raise e, s' :: rest, w1)
      | Ok d =>
          let '(rs, rest', w2) := sections_to_dict extra_flag rest w1 in
          (ds <- rs ;; Ok (d :: ds), s' :: rest', w2)
      end
  end.

Definition PittCourse_to_dict (extra_flag : bool) (self : PittCourse) (w : World)
  : result (list SectionDict) * PittCourse * World :=
  let '(r, secs, w') := sections_to_dict extra_flag (sections self) w in
  (r, mkPittCourse (head self) secs, w').

(** [{k: v.to_dict(extra_details=extra_details) for k, v in items}] *)
Fixpoint items_to_dict (extra_flag : bool) (items : list (string * PittCourse))
    (w : World)
  : result (list (string * list SectionDict)) * list (string * PittCourse) * World :=
  match items with
  | [] => (Ok [], [], w)
  | (k, v) :: rest =>
      let '(r, v', w1) := PittCourse_to_dict extra_flag v w in
      match r with
      | Raise e => (Raise e, (k, v') :: rest, w1)
      | Ok d =>
          let '(rs, rest', w2) := items_to_dict extra_flag rest w1 in
          (ds <- rs ;; Ok ((k, d) :: ds), (k, v') :: rest', w2)
      end
  end.

Definition PittSubject_to_dict (extra_flag : bool) (self : PittSubject) (w : World)
  : result (list (string * list SectionDict)) * PittSubject * World :=
  let '(r, items, w') := items_to_dict extra_flag (_courses self) w in
  (r, mkPittSubject (subject self) (term self) items, w').

(** *** Vocabulary of the statements *)

(** The string a validator works on: [str(v)] for an [int], [v] itself
    for a [str]. *)
Definition as_str (v : pyval) : option string :=
  match v with
  | PyInt z => Some (Py.str_of_int z)
  | PyStr s => Some s
  | PyNone => None
  end.

(** A term code as the documentation describes it: exactly four
    characters, ['2'], two digits, and one of ['1'], ['4'], ['7']. *)
Definition is_term_code (s : string) : Prop :=
  exists c1 c2 c3,
    s = String "2" (String c1 (String c2 (String c3 EmptyString)))
    /\ Py.isdigit c1 = true /\ Py.isdigit c2 = true
    /\ (c3 = "1" \/ c3 = "4" \/ c3 = "7")%char.

(** Consecutive two-character pieces of a string, a trailing odd character
    left out. *)
Fixpoint pairs (s : string) : list string :=
  match s with
  | String a (String b rest) => String a (String b EmptyString) :: pairs rest
  | _ => []
  end.

(** The chunks put back together. *)
Definition joined (chunks : list string) : string :=
  fold_right append EmptyString chunks.

(** The day-string of a days/times field that is not ["TBA"]: the first of
    the two space-separated tokens before the first [" - "]. *)
Definition day_string_of (days_times : string) : result string :=
  first <- Py.index (Py.split days_times " - ") 0 ;;
  '(day_string, _) <- Py.unpack2 (Py.split first " ") ;;
  Ok day_string.

(** What line 179 (and 252) makes of a day-string: two-character chunks,
    half as many as the string has characters, which together give the
    string back except for the last character of an odd-length string. *)
Definition chunked (day_string : string) (chunks : list string) : Prop :=
  List.length chunks = String.length day_string / 2
  /\ Forall (fun c => String.length c = 2) chunks
  /\ (Nat.even (String.length day_string) = true -> joined chunks = day_string)
  /\ (Nat.odd (String.length day_string) = true ->
        exists c, day_string = (joined chunks ++ String c EmptyString)%string).

(** A description node and a link node, as [PittSubject.parse_webpage]
    tells them apart. *)
Definition is_description (t : Tag) : Prop :=
  Py.contains (attrs t) "class" = true /\ text t <> EmptyString.

Definition is_link (t : Tag) : Prop :=
  Py.contains (attrs t) "class" = false.

(** The course number a description node announces. *)
Definition description_number (t : Tag) : result string :=
  first <- Py.index (Py.split (text t) " - ") 0 ;;
  Py.index (Py.split first " ") 1.

(** The section [PittSubject.parse_webpage] builds from a link node met
    while [course] is the current course. *)
Definition link_section (self : SubjectRef) (course : CourseHead) (t : Tag)
  : result PittSection :=
  class_sections_url <- Py.getitem (attrs t) "href" ;;
  PittSection_init (Some self) (Some course) class_sections_url
    (Some (class_data_of t)) None None.

(** The number of sections of each course, in the order of the dict. *)
Definition section_counts (self : PittSubject) : list nat :=
  map (fun kv => List.length (sections (snd kv))) (_courses self).

(** The tags of a node list, in order. *)
Fixpoint tags_of (nodes : list PageElement) : list Tag :=
  match nodes with
  | [] => []
  | Element t :: rest => t :: tags_of rest
  | NavigableString _ :: rest => tags_of rest
  end.

(** [PittSection.course_number] *)
Definition PittSection_course_number (self : PittSection) : option string :=
  match s_parent_course self with
  | Some c => Some (c_number c)
  | None => s_course_number self
  end.

(** [s] holds no occurrence of [sep]. *)
Definition lacks (sep s : string) : Prop := Py.str_contains sep s = false.

(** The text of a link node as the portal prints it: six lines, each a
    label, [": "] and a value; the second line is not read. [None] as the
    meeting stands for ["TBA"], otherwise the meeting is a day-string, a
    start time and an end time. *)
Record LinkText : Type := mkLinkText {
  label_section : string;
  text_section : string;
  text_type : string;
  text_token : string;
  line_session : string;
  label_meeting : string;
  text_meeting : option (string * string * string);
  label_room : string;
  text_room : string;
  label_instructor : string;
  text_instructor : string;
  label_dates : string;
  text_start : string;
  text_end : string
}.

Definition meeting_value (m : option (string * string * string)) : string :=
  match m with
  | None => "TBA"
  | Some (day_string, start, finish) =>
      (day_string ++ " " ++ start ++ " - " ++ finish)%string
  end.

Definition section_value (r : LinkText) : string :=
  (text_section r ++ "-" ++ text_type r ++ " " ++ text_token r)%string.

Definition dates_value (r : LinkText) : string :=
  (text_start r ++ " - " ++ text_end r)%string.

Definition render (r : LinkText) : list string :=
  [ (label_section r ++ ": " ++ section_value r)%string;
    line_session r;
    (label_meeting r ++ ": " ++ meeting_value (text_meeting r))%string;
    (label_room r ++ ": " ++ text_room r)%string;
    (label_instructor r ++ ": " ++ text_instructor r)%string;
    (label_dates r ++ ": " ++ dates_value r)%string ].

(** The string without its last character: what of a separator can
    follow a string without completing an occurrence that starts in it. *)
Fixpoint but_last (s : string) : string :=
  match s with
  | EmptyString => EmptyString
  | String c EmptyString => EmptyString
  | String c s' => String c (but_last s')
  end.

(** A tag with a [class] attribute and no text: the scan passes over it. *)
Definition ignored (t : Tag) : Prop :=
  Py.contains (attrs t) "class" = true /\ text t = EmptyString.

Definition is_link_b (t : Tag) : bool := negb (Py.contains (attrs t) "class").

(** The link nodes of a node list, in order. *)
Definition link_tags (nodes : list PageElement) : list Tag :=
  filter is_link_b (tags_of nodes).

(** The number of sections held by all the courses of a mapping. *)
Definition total_sections (cs : list (string * PittCourse)) : nat :=
  list_sum (map (fun kv => List.length (sections (snd kv))) cs).

(** An entry of the course mapping as [PittSubject.parse_webpage] makes
    it for the subject [r]: the course carries the key as its number and
    refers to the subject, and its sections refer to the subject and to
    the course and have an empty extra-details cache. *)
Definition filed (r : SubjectRef) (kv : string * PittCourse) : Prop :=
  head (snd kv) = mkCourseHead (Some r) None None (fst kv)
  /\ Forall (fun sec => s_parent_subject sec = Some r
                        /\ s_parent_course sec = Some (head (snd kv))
                        /\ _extra sec = None
                        /\ class_fields sec <> None)
            (sections (snd kv)).

(** The [href] values of the tags that have one, in order. *)
Definition hrefs (ts : list Tag) : list string :=
  flat_map (fun t => match Py.getitem (attrs t) "href" with
                     | Ok u => [u]
                     | Raise _ => []
                     end) ts.

(** The last tag of a list, if any. *)
Definition last_tag (ts : list Tag) : option Tag := last (map Some ts) None.

(** The URLs of the sections whose extra-details cache is empty, in
    order: of a section list and of a whole subject. *)
Definition uncached (sec : PittSection) : bool :=
  match _extra sec with
  | None => true
  | Some _ => false
  end.

Definition pending (secs : list PittSection) : list string :=
  map url (filter uncached secs).

Definition pending_items (items : list (string * PittCourse)) : list string :=
  flat_map (fun kv => pending (sections (snd kv))) items.

(** [a] can be followed by [sep] without an occurrence of [sep] starting
    inside [a]. *)
Definition ends_clear (sep a : string) : Prop :=
  Py.str_contains sep (a ++ but_last sep) = false.

Definition meeting_well_formed (m : option (string * string * string)) : Prop :=
  match m with
  | None => True
  | Some (day_string, start, finish) =>
      lacks " " day_string /\ lacks " " start
      /\ ends_clear " - " (day_string ++ " " ++ start)
      /\ lacks " - " finish
  end.

(** No field holds the separator that ends it, and no value holds [": "]. *)
Definition well_formed (r : LinkText) : Prop :=
  ends_clear ": " (label_section r) /\ ends_clear ": " (label_meeting r)
  /\ ends_clear ": " (label_room r) /\ ends_clear ": " (label_instructor r)
  /\ ends_clear ": " (label_dates r)
  /\ lacks ": " (section_value r) /\ lacks ": " (meeting_value (text_meeting r))
  /\ lacks ": " (text_room r) /\ lacks ": " (text_instructor r)
  /\ lacks ": " (dates_value r)
  /\ lacks " " (text_section r ++ "-" ++ text_type r) /\ lacks " " (text_token r)
  /\ lacks "-" (text_section r) /\ lacks "-" (text_type r)
  /\ meeting_well_formed (text_meeting r)
  /\ ends_clear " - " (text_start r) /\ lacks " - " (text_end r).

Definition meeting_days (m : option (string * string * string))
  : option (list string) :=
  match m with
  | None => None
  | Some (day_string, _, _) => Some (pairs day_string)
  end.

Definition meeting_times (m : option (string * string * string))
  : option (list string) :=
  match m with
  | None => None
  | Some (_, start, finish) => Some [start; finish]
  end.

End Course.

(** ** The query functions *)

(** A request sent by a [requests.Session]. *)
Inductive Request : Type :=
| GET (url : string)
| POST (url : string) (data : list (string * pyval)).

(** The network as the query functions see it: the requests sent so far,
    oldest first, and the server. *)
Record Net (Server : Type) : Type := mkNet {
  sent : list Request;
  portal : Server
}.
Arguments mkNet {Server}.
Arguments sent {Server}.
Arguments portal {Server}.

(** What the query functions call on a [requests.Session]; the session
    itself is its cookie jar.

    [session_get url]: [session.get(url)], giving the cookie jar afterwards
    (or the exception raised) and the server's next state.
    [session_post url data jar]: [session.post(url, data=data).text] sent
    with the cookies of [jar]. *)
Class Session {env : Env} : Type := {
  session_get : string -> Server -> result (list (string * string)) * Server;
  session_post : string -> list (string * pyval) -> list (string * string) ->
                 Server -> result string * Server
}.

Section Queries.

Context {env : Env} {ses : Session}.

Local Abbreviation PittSection := (PittSection datetime Tag).
Local Abbreviation PittCourse := (PittCourse datetime Tag).
Local Abbreviation PittSubject := (PittSubject datetime Tag).
Local Abbreviation Net := (Net Server).

(** Code that may raise and may send requests. *)
Definition NetM (A : Type) : Type := Net -> result A * Net.

Definition bindN {A B : Type} (c : NetM A) (k : A -> NetM B) : NetM B :=
  fun n =>
    let (r, n1) := c n in
    match r with
    | Ok a => k a n1
    | Raise e => (Raise e, n1)
    end.

(** Code that sends nothing. *)
Definition pure {A : Type} (r : result A) : NetM A := fun n => (r, n).

Notation "x <~ c ;; k" := (bindN c (fun x => k))
  (at level 61, c at next level, right associativity).
Notation "' pat <~ c ;; k" := (bindN c (fun x => match x with pat => k end))
  (at level 61, pat pattern, c at next level, right associativity).

(** [session = requests.Session(); session.get(url)] *)
Definition new_session_get (url : string) : NetM (list (string * string)) :=
  fun n =>
    let (r, sv) := session_get url (portal n) in
    (r, mkNet (sent n ++ [GET url]) sv).

(** [session.post(url, data=payload)], read as text. *)
Definition post (session : list (string * string)) (url : string)
    (payload : list (string * pyval)) : NetM string :=
  fun n =>
    let (r, sv) := session_post url payload session (portal n) in
    (r, mkNet (sent n ++ [POST url payload]) sv).

Definition search_payload (token term subject course : string) (section : pyval)
  : list (string * pyval) :=
  [ ("CSRFToken", PyStr token);
    ("term", PyStr term);
    ("campus", PyStr "PIT");
    ("subject", PyStr subject);
    ("acad_career", PyStr "");
    ("catalog_nbr", PyStr course);
    ("class_nbr", section) ].

Definition _get_payload (term subject course : string) (section : pyval)
  : NetM (list (string * string) * list (string * pyval)) :=
  session <~ new_session_get CLASS_SEARCH_URL ;;
  token <~ pure (Py.getitem session "CSRFCookie") ;;
  pure (Ok (session, search_payload token term subject course section)).

Definition get_term_courses (term : pyval) (subject : string) : NetM PittSubject :=
  term <~ pure (_validate_term term) ;;
  subject <~ pure (_validate_subject subject) ;;
  '(session, payload) <~ _get_payload term subject "" (PyStr "") ;;
  response <~ post session CLASS_SEARCH_API_URL payload ;;
  let container := PittSubject_init subject term in
  pure (PittSubject_parse_webpage container response).

Definition get_course_sections (term : pyval) (subject : string) (course : pyval)
  : NetM PittCourse :=
  term <~ pure (_validate_term term) ;;
  subject <~ pure (_validate_subject subject) ;;
  course <~ pure (_validate_course course) ;;
  '(session, payload) <~ _get_payload term subject course (PyStr "") ;;
  response <~ post session CLASS_SEARCH_API_URL payload ;;
  let container := PittCourse_init None course (Some term) (Some subject) in
  pure (PittCourse_parse_webpage container response).

Definition get_section_details (term : pyval) (section_number : pyval)
  : NetM PittSection :=
  term <~ pure (_validate_term term) ;;
  let section_number :=
    match section_number with
    | PyInt z => PyStr (Py.str_of_int z)
    | v => v
    end in
  '(session, payload) <~ _get_payload term "" "" section_number ;;
  response <~ post session CLASS_SEARCH_API_URL payload ;;
  container <~ pure (PittSection_init None None "" None None (Some term)) ;;
  pure (PittSection_parse_webpage container response).

(** The two requests of a completed search. *)
Definition search_requests (token term subject course : string) (section : pyval)
  : list Request :=
  [ GET CLASS_SEARCH_URL;
    POST CLASS_SEARCH_API_URL (search_payload token term subject course section) ].

End Queries.

(** ** A sample environment

    One concrete choice of the external capabilities, used to run the
    embedding on fixture documents. *)

Module Sample.

(** A tag reduced to its attribute dict and its text. *)
Record tag : Type := mkTag {
  tag_attrs : list (string * string);
  tag_text : string
}.

Record date : Type := mkDate {
  month : nat;
  day : nat;
  year : nat
}.

Definition digit (c : ascii) : option nat :=
  if Py.isdigit c then Some (nat_of_ascii c - 48) else None.

(** Dates written [mm/dd/yyyy] with all ten characters present. *)
Definition parse_date (s : string) : option date :=
  match s with
  | String m1 (String m2 (String "/" (String d1 (String d2 (String "/"
      (String y1 (String y2 (String y3 (String y4 EmptyString))))))))) =>
      match digit m1, digit m2, digit d1, digit d2,
            digit y1, digit y2, digit y3, digit y4 with
      | Some a, Some b, Some c, Some d, Some e, Some f, Some g, Some h =>
          let m := a * 10 + b in
          let dd := c * 10 + d in
          if ((1 <=? m) && (m <=? 12) && (1 <=? dd) && (dd <=? 31))%nat
          then Some (mkDate m dd (e * 1000 + f * 100 + g * 10 + h))
          else None
      | _, _, _, _, _, _, _, _ => None
      end
  | _ => None
  end.

(** A description node and a link node as the results page has them. *)
Definition description_tag (txt : string) : tag :=
  mkTag [("class", "section-content")] txt.

Definition link_tag (href : string) (lines : list string) : tag :=
  mkTag [("href", href)] (String.concat LF lines).

Definition description (txt : string) : PageElement tag :=
  Element (description_tag txt).

Definition link (href : string) (lines : list string) : PageElement tag :=
  Element (link_tag href lines).

Definition link_lines (days_times : string) : list string :=
  [ "Section: 1010-LEC (12345)";
    "Session: Academic Term";
    ("Days/Times: " ++ days_times)%string;
    "Room: 5502 Sennott Square";
    "Instructor: J. Doe";
    "Meeting Dates: 08/27/2018 - 12/07/2018" ].

(** The body of a response is the name of a document. *)
Definition nl : PageElement tag := NavigableString LF.

Definition two_courses : list (PageElement tag) :=
  [ nl; description "CS 0401 - INTERMEDIATE PROGRAMMING"; nl;
    link "/s/101" (link_lines "MoWe 2:00PM - 3:15PM"); nl;
    link "/s/102" (link_lines "TuTh 9:30AM - 10:45AM"); nl;
    description "CS 0441 - DISCRETE STRUCTURES"; nl;
    link "/s/103" (link_lines "TBA"); nl ].

Definition same_course_twice : list (PageElement tag) :=
  [ description "CS 0401 - INTERMEDIATE PROGRAMMING";
    link "/s/101" (link_lines "MoWe 2:00PM - 3:15PM");
    link "/s/102" (link_lines "TuTh 9:30AM - 10:45AM");
    description "CS 0401 - INTERMEDIATE PROGRAMMING";
    link "/s/103" (link_lines "TBA") ].

Definition unpadded_course : list (PageElement tag) :=
  [ description "CS 5 - SEMINAR";
    link "/s/104" (link_lines "Fr 1:00PM - 1:50PM") ].

Definition one_section : list (PageElement tag) :=
  [ nl; link "/s/105" (link_lines "MoWeF 2:00PM - 3:15PM"); nl;
    description "CS 0401 - INTERMEDIATE PROGRAMMING" ].

Definition results_page (body : string)
  : result (list (PageElement tag)) :=
  if String.eqb body "two_courses" then Ok two_courses
  else if String.eqb body "same_course_twice" then Ok same_course_twice
  else if String.eqb body "unpadded_course" then Ok unpadded_course
  else if String.eqb body "one_section" then Ok one_section
  else Raise AttributeError.

Definition detail_block (label value : string) : PageElement tag :=
  Element (mkTag [("class", "section-content clearfix")]
             (label ++ LF ++ value)%string).

Definition detail_page : list (PageElement tag) :=
  [ nl; detail_block "Status" "Open"; nl;
    detail_block "Career" "Undergraduate"; nl;
    detail_block "Units" "3 units"; nl;
    detail_block "Grading" "Letter Grade"; nl;
    detail_block "Description" "An intermediate course."; nl;
    detail_block "Enrollment Requirements" "PREQ: CS 0007"; nl;
    detail_block "Class Attributes" "Undergraduate Course"; nl ].

Definition detail_siblings (body : string)
  : result (list (PageElement tag)) :=
  if String.eqb body "detail" then Ok detail_page else Raise AttributeError.

(** The value of a detail block is the last line of its text. *)
Definition block_value (x : PageElement tag)
  : result (option (PageElement tag)) :=
  match x with
  | Element t => Ok (Some (NavigableString (last (Py.split (tag_text t) LF) "")))
  | NavigableString _ => Raise TypeError
  end.

Definition string_text (s : string) : result string := Ok s.

(** A server that answers every GET with the detail page and counts the
    requests it has served. *)
Definition serve (url : string) (served : nat) : result string * nat :=
  (Ok "detail", S served).

Definition env : Env :=
  Build_Env date parse_date tag tag_attrs tag_text results_page detail_siblings
    block_value string_text nat serve.

#[local] Existing Instance env.

(** A session whose priming GET sets the CSRF cookie and whose POST is
    answered with the document that fits the filters of the payload. *)
Definition prime (url : string) (served : nat)
  : result (list (string * string)) * nat :=
  (Ok [("CSRFCookie", "token-1")], S served).

Definition answer (url : string) (data : list (string * pyval))
    (jar : list (string * string)) (served : nat) : result string * nat :=
  match Py.getitem data "class_nbr" with
  | Ok (PyStr "") => (Ok "two_courses", S served)
  | _ => (Ok "one_section", S served)
  end.

Definition session : Session := Build_Session env prime answer.

#[local] Existing Instance session.

Definition net0 : Net Server := mkNet [] 0.

Local Abbreviation PittSection := (PittSection datetime Tag).
Local Abbreviation PittSubject := (PittSubject datetime Tag).
Local Abbreviation SectionDict := (SectionDict datetime Tag).
Local Abbreviation ExtraMap := (ExtraMap Tag).
Local Abbreviation World := (World Server).

(** Fixtures: a fresh subject, the subjects parsed from the sample
    documents, a world in which nothing has been requested yet, and what
    [to_dict] and [extra_details] make of them. *)
Definition fresh : PittSubject := PittSubject_init "CS" "2191".

Definition parsed (body : string) : PittSubject :=
  match PittSubject_parse_webpage fresh body with
  | Ok subj => subj
  | Raise _ => fresh
  end.

Definition two_courses_subject : PittSubject :=
  Eval vm_compute in parsed "two_courses".

Definition unpadded_subject : PittSubject :=
  Eval vm_compute in parsed "unpadded_course".

Definition same_course_subject : PittSubject :=
  Eval vm_compute in parsed "same_course_twice".

Definition world0 : World := mkWorld [] 0.

Definition two_courses_dict : list (string * list SectionDict) :=
  Eval vm_compute in
    match PittSubject_to_dict true two_courses_subject world0 with
    | (Ok d, _, _) => d
    | _ => []
    end.

Definition two_courses_cached : PittSubject :=
  Eval vm_compute in snd (fst (PittSubject_to_dict true two_courses_subject world0)).

Definition world_after_dict : World :=
  Eval vm_compute in snd (PittSubject_to_dict true two_courses_subject world0).

Definition lone_section : PittSection :=
  mkPittSection None None (Some "2191") None None None "/s/101" None.

(** The section the constructor builds from a link record with the
    given days/times field. *)
Definition built (days_times : string) : PittSection :=
  match PittSection_init None None "/s/101" (Some (link_lines days_times))
          None None with
  | Ok sec => sec
  | Raise _ => lone_section
  end.

Definition mw_section : PittSection :=
  Eval vm_compute in built "MW 2:00PM - 3:15PM".

Definition lone_extra : ExtraMap :=
  Eval vm_compute in
    match extra_details lone_section world0 with
    | (Ok m, _, _) => m
    | _ => []
    end.

Definition lone_section_cached : PittSection :=
  Eval vm_compute in snd (fst (extra_details lone_section world0)).

Definition world_after_read : World :=
  Eval vm_compute in snd (extra_details lone_section world0).

(** A link record and the text it is printed as. *)
Definition monday_lecture : LinkText :=
  mkLinkText "Section" "1010" "LEC" "(12345)" "Session: Academic Term"
    "Days/Times" (Some ("MoWe", "2:00PM", "3:15PM"))
    "Room" "5502 Sennott Square" "Instructor" "J. Doe"
    "Meeting Dates" "08/27/2018" "12/07/2018".

Definition lone_course : PittCourse datetime Tag :=
  PittCourse_init None "0401" (Some "2191") (Some "CS").

Definition lone_course_parsed : PittCourse datetime Tag :=
  Eval vm_compute in
    match PittCourse_parse_webpage lone_course "two_courses" with
    | Ok c => c
    | Raise _ => lone_course
    end.

Definition lone_section_parsed : PittSection :=
  Eval vm_compute in
    match PittSection_parse_webpage lone_section "one_section" with
    | Ok sec => sec
    | Raise _ => lone_section
    end.

Definition term_courses : PittSubject :=
  Eval vm_compute in
    match get_term_courses (PyInt 2191) "cs" net0 with
    | (Ok subj, _) => subj
    | _ => fresh
    end.

Definition net_after_term_courses : Net Server :=
  Eval vm_compute in snd (get_term_courses (PyInt 2191) "cs" net0).

Definition course_sections : PittCourse datetime Tag :=
  Eval vm_compute in
    match get_course_sections (PyStr "2191") "Cs" (PyInt 401) net0 with
    | (Ok c, _) => c
    | _ => lone_course
    end.

Definition net_after_course_sections : Net Server :=
  Eval vm_compute in
    snd (get_course_sections (PyStr "2191") "Cs" (PyInt 401) net0).

Definition section_details : PittSection :=
  Eval vm_compute in
    match get_section_details (PyInt 2191) (PyInt 12345) net0 with
    | (Ok sec, _) => sec
    | _ => lone_section
    end.

Definition net_after_section_details : Net Server :=
  Eval vm_compute in snd (get_section_details (PyInt 2191) (PyInt 12345) net0).

End Sample.

Section Theory.

Context {env : Env}.

Local Abbreviation PageElement := (PageElement Tag).
Local Abbreviation ClassFields := (ClassFields datetime).
Local Abbreviation ExtraValue := (ExtraValue Tag).
Local Abbreviation ExtraMap := (ExtraMap Tag).
Local Abbreviation PittSection := (PittSection datetime Tag).
Local Abbreviation PittCourse := (PittCourse datetime Tag).
Local Abbreviation PittSubject := (PittSubject datetime Tag).
Local Abbreviation World := (World Server).
Local Abbreviation SectionDict := (SectionDict datetime Tag).

(** ** Theory *)

Lemma bind_Ok_inv {A B : Type} (r : result A) (k : A -> result B) (b : B) :
  bind r k = Ok b -> exists a, r = Ok a /\ k a = Ok b.
Proof.
  destruct r as [a|e]; simpl; intro H; [exists a; auto | discriminate].
Qed.

Ltac inv_bind H :=
  let a := fresh "a" in
  let E := fresh "E" in
  apply bind_Ok_inv in H; destruct H as (a & E & H).

(** *** Strings *)

Lemma length_app (s t : string) :
  String.length (s ++ t) = String.length s + String.length t.
Proof.
  induction s as [|c s IH]; simpl; [reflexivity | now rewrite IH].
Qed.

Lemma length_zeros (n : nat) : String.length (Py.zeros n) = n.
Proof.
  induction n as [|n IH]; simpl; [reflexivity | now rewrite IH].
Qed.

(** *** Validators *)

(** C5. For an input (an [int] is first turned into its decimal string)
    whose string has 1 to 4 characters, [_validate_course] returns that
    string left-padded with zeros, 4 characters long; for a string of
    more than 4 characters it raises ValueError (the module's invalid
    course number failure). *)
Theorem validate_course_pads (course : pyval) (s : string) :
  as_str course = Some s ->
  (1 <= String.length s <= 4 ->
     _validate_course course = Ok (Py.zeros (4 - String.length s) ++ s)%string
     /\ String.length (Py.zeros (4 - String.length s) ++ s) = 4)
  /\ (4 < String.length s -> _validate_course course = Raise ValueError).
Proof.
  intro Hs.
  assert (Hc : _validate_course course = _validate_course (PyStr s)).
  { destruct course; simpl in Hs; inversion Hs; reflexivity. }
  rewrite Hc. unfold _validate_course. split.
  - intros [Hlo Hhi]. split.
    + destruct (Nat.ltb_spec (String.length s) 4) as [Hlt|Hge].
      * reflexivity.
      * destruct (Nat.ltb_spec 4 (String.length s)) as [Hgt|_]; [lia|].
        replace (4 - String.length s) with 0 by lia. reflexivity.
    + rewrite length_app, length_zeros. lia.
  - intro Hgt.
    destruct (Nat.ltb_spec (String.length s) 4) as [Hlt|_]; [lia|].
    destruct (Nat.ltb_spec 4 (String.length s)) as [_|Hle]; [reflexivity | lia].
Qed.

(** The accepted strings are those with an accepted four-character
    prefix. *)
Lemma valid_terms_match_app (s t : string) :
  valid_terms_match s = true -> valid_terms_match (s ++ t) = true.
Proof.
  destruct s as [|c0 [|c1 [|c2 [|c3 r]]]]; simpl; try discriminate. auto.
Qed.

(** The half of the term-code property the code does satisfy. *)
Lemma validate_term_code (s : string) :
  is_term_code s -> _validate_term (PyStr s) = Ok s.
Proof.
  intros (c1 & c2 & c3 & -> & H1 & H2 & H3).
  unfold _validate_term, valid_terms_match. rewrite H1, H2.
  destruct H3 as [-> | [-> | ->]]; reflexivity.
Qed.

Lemma validate_term_rejects (s : string) :
  valid_terms_match s = false -> _validate_term (PyStr s) = Raise ValueError.
Proof. intro H. unfold _validate_term. now rewrite H. Qed.

(** C4. [_validate_term] does not reject every input that is not a
    four-character term code: the five-character string ["21741"], and the
    integer 21741, are returned as valid terms. *)
Theorem validate_term_not_anchored :
  ~ is_term_code "21741"
  /\ _validate_term (PyStr "21741") = Ok "21741"
  /\ _validate_term (PyInt 21741) = Ok "21741".
Proof.
  split; [|split; reflexivity].
  intros (c1 & c2 & c3 & H & _). discriminate H.
Qed.

(** C9. [PittSubject.__getitem__] returns [None] for every key that is
    not a [str]; a [str] key never yields [None]: it yields a course or
    raises ValueError. *)
Theorem getitem_non_str_is_None (self : PittSubject) :
  (forall z, PittSubject_getitem self (PyInt z) = Ok None)
  /\ PittSubject_getitem self PyNone = Ok None
  /\ (forall s,
        (exists c, PittSubject_getitem self (PyStr s) = Ok (Some c))
        \/ PittSubject_getitem self (PyStr s) = Raise ValueError).
Proof.
  split; [reflexivity | split; [reflexivity |]].
  intro s. unfold PittSubject_getitem.
  destruct (_validate_course (PyStr s)) as [k|e] eqn:Ev; simpl.
  - unfold Py.contains, Py.getitem.
    induction (_courses self) as [|[k' c'] l IH]; simpl; [now right|].
    destruct (String.eqb k' k); simpl; [left; eexists; reflexivity | exact IH].
  - right. unfold _validate_course in Ev.
    destruct (String.length s <? 4)%nat; [discriminate|].
    destruct (4 <? String.length s)%nat; [|discriminate].
    now inversion Ev.
Qed.

(** *** The days/times field *)

Lemma string_ind2 (P : string -> Prop) :
  P EmptyString ->
  (forall a, P (String a EmptyString)) ->
  (forall a b r, P r -> P (String a (String b r))) ->
  forall s, P s.
Proof.
  intros H0 H1 H2 s.
  enough (H : P s /\ forall a, P (String a s)) by apply H.
  induction s as [|c s [IHs IHc]]; split; auto.
Qed.

Lemma half_SS (n : nat) : S (S n) / 2 = S (n / 2).
Proof.
  replace (S (S n)) with (n + 1 * 2) by lia.
  rewrite Nat.div_add by lia. lia.
Qed.

Lemma slice_two (s : string) (i : nat) :
  Py.slice s (i * 2) (i * 2 + 2) = substring (i * 2) 2 s.
Proof. unfold Py.slice. f_equal. lia. Qed.

Lemma day_chunks_pairs (s : string) : day_chunks s = pairs s.
Proof.
  induction s as [|a|a b r IH] using string_ind2; try reflexivity.
  unfold day_chunks in *.
  change (String.length (String a (String b r))) with (S (S (String.length r))).
  rewrite half_SS. cbn [seq map pairs]. f_equal.
  { rewrite slice_two. simpl. destruct r; reflexivity. }
  rewrite <- seq_shift, map_map, <- IH.
  apply map_ext. intro i. rewrite !slice_two. reflexivity.
Qed.

Lemma pairs_chunked (s : string) : chunked s (pairs s).
Proof.
  unfold chunked.
  induction s as [|a|a b r (IHl & IHf & IHe & IHo)] using string_ind2.
  - simpl. repeat split; auto. discriminate.
  - simpl. repeat split; auto; [discriminate|]. intros _. now exists a.
  - change (String.length (String a (String b r))) with (S (S (String.length r))).
    rewrite half_SS. cbn [pairs joined fold_right List.length].
    repeat split.
    + now rewrite IHl.
    + constructor; [reflexivity | exact IHf].
    + intro He. simpl in He. simpl. f_equal. f_equal. now apply IHe.
    + intro Ho. change (Nat.odd (String.length r) = true) in Ho.
      destruct (IHo Ho) as [c Hc]. exists c. simpl. f_equal. f_equal. exact Hc.
Qed.

Lemma day_chunks_chunked (s : string) : chunked s (day_chunks s).
Proof. rewrite day_chunks_pairs. apply pairs_chunked. Qed.

Lemma days_and_times_TBA (line2 : string) :
  extract line2 = Ok "TBA" -> days_and_times line2 = Ok (None, None).
Proof. intro H. unfold days_and_times. rewrite H. reflexivity. Qed.

Lemma days_and_times_not_TBA (line2 days_times : string) d t :
  extract line2 = Ok days_times ->
  days_times <> "TBA" ->
  days_and_times line2 = Ok (d, t) ->
  exists day_string start finish,
    day_string_of days_times = Ok day_string
    /\ Py.index (Py.split days_times " - ") 1 = Ok finish
    /\ d = Some (day_chunks day_string)
    /\ t = Some [start; finish].
Proof.
  intros He Hne H. unfold days_and_times in H. rewrite He in H. simpl in H.
  apply String.eqb_neq in Hne. rewrite Hne in H. simpl in H.
  unfold day_string_of.
  inv_bind H. rewrite E. simpl.
  inv_bind H. rewrite E0. simpl. destruct a0 as [ds st].
  inv_bind H. inversion H; subst.
  exists ds, st, a0. auto.
Qed.

(** *** PittSection.__init__ and the link-node branch of
    PittSection.parse_webpage *)

Lemma class_data_fields_days (class_data : list string) (f : ClassFields) :
  class_data_fields class_data = Ok f ->
  exists line2,
    Py.index class_data 2 = Ok line2
    /\ days_and_times line2 = Ok (days f, times f).
Proof.
  intro H. unfold class_data_fields in H.
  repeat (let a := fresh "a" in
          let E := fresh "E" in
          apply bind_Ok_inv in H; destruct H as (a & E & H);
          try (destruct a as [? ?])).
  inversion H; subst; simpl. eauto.
Qed.

Lemma PittSection_init_fields parent course class_section_url class_data extra term0
    (sec : PittSection) :
  PittSection_init parent course class_section_url (Some class_data) extra term0
    = Ok sec ->
  exists f, class_fields sec = Some f /\ class_data_fields class_data = Ok f.
Proof.
  intro H. unfold PittSection_init in H.
  inv_bind H. inv_bind E. inversion E; subst. inversion H; subst; simpl. eauto.
Qed.

Lemma parse_link_fields (self self' : PittSection) (child : Tag) :
  is_link child ->
  PittSection_parse_child self (Element child) = Ok self' ->
  exists f, class_fields self' = Some f
            /\ class_data_fields (class_data_of child) = Ok f.
Proof.
  intros Hl H. unfold PittSection_parse_child in H.
  unfold is_link in Hl. rewrite Hl in H. simpl in H.
  inv_bind H. inv_bind H. inversion H; subst; simpl. eauto.
Qed.

(** C6. When the days/times line of the link node, its label taken off
    by [extract], is ["TBA"], the section the constructor builds has
    [days = None] and [times = None]. *)
Theorem init_TBA parent course class_section_url class_data extra term0
    (sec : PittSection) (line2 : string) :
  PittSection_init parent course class_section_url (Some class_data) extra term0
    = Ok sec ->
  Py.index class_data 2 = Ok line2 ->
  extract line2 = Ok "TBA" ->
  exists f, class_fields sec = Some f /\ days f = None /\ times f = None.
Proof.
  intros Hinit Hline Hx.
  destruct (PittSection_init_fields _ _ _ _ _ _ _ Hinit) as (f & Hf & Hcd).
  destruct (class_data_fields_days _ _ Hcd) as (l2 & Hl2 & Hdt).
  rewrite Hline in Hl2. inversion Hl2; subst l2.
  rewrite (days_and_times_TBA _ Hx) in Hdt. inversion Hdt.
  exists f. auto.
Qed.

(** C1 (as the code has it). When the days/times line of the link node,
    its label taken off, is ["MW 2:00PM - 3:15PM"], the section the
    constructor builds has [days = ["MW"]], one two-character chunk, and
    [times = ["2:00PM", "3:15PM"]]. *)
Theorem init_MW parent course class_section_url class_data extra term0
    (sec : PittSection) (line2 : string) :
  PittSection_init parent course class_section_url (Some class_data) extra term0
    = Ok sec ->
  Py.index class_data 2 = Ok line2 ->
  extract line2 = Ok "MW 2:00PM - 3:15PM" ->
  exists f, class_fields sec = Some f
            /\ days f = Some ["MW"]
            /\ times f = Some ["2:00PM"; "3:15PM"].
Proof.
  intros Hinit Hline Hx.
  destruct (PittSection_init_fields _ _ _ _ _ _ _ Hinit) as (f & Hf & Hcd).
  destruct (class_data_fields_days _ _ Hcd) as (l2 & Hl2 & Hdt).
  rewrite Hline in Hl2. inversion Hl2; subst l2.
  unfold days_and_times in Hdt. rewrite Hx in Hdt.
  vm_compute in Hdt. inversion Hdt.
  exists f. auto.
Qed.

(** Without the space between the day-string and the start time, the
    field the specification quotes cannot be unpacked: no section is
    built. *)
Lemma init_MW_unspaced parent course class_section_url class_data extra term0
    (line2 : string) :
  Py.index class_data 2 = Ok line2 ->
  extract line2 = Ok "MW2:00PM - 3:15PM" ->
  forall sec : PittSection,
    PittSection_init parent course class_section_url (Some class_data) extra term0
      <> Ok sec.
Proof.
  intros Hline Hx sec Hinit.
  destruct (PittSection_init_fields _ _ _ _ _ _ _ Hinit) as (f & Hf & Hcd).
  destruct (class_data_fields_days _ _ Hcd) as (l2 & Hl2 & Hdt).
  rewrite Hline in Hl2. inversion Hl2; subst l2.
  unfold days_and_times in Hdt. rewrite Hx in Hdt.
  vm_compute in Hdt. discriminate.
Qed.

(** C10. For a days/times field other than ["TBA"], the days of the
    parsed section are the two-character chunks of the day-string:
    [len(day-string) // 2] of them, and the last character of a day-string
    of odd length is in none of them. This holds for the constructor and
    for the link-node branch of [PittSection.parse_webpage]. *)
Theorem days_are_chunks (line2 days_times : string) :
  extract line2 = Ok days_times ->
  days_times <> "TBA" ->
  (forall parent course class_section_url class_data extra term0 (sec : PittSection),
      PittSection_init parent course class_section_url (Some class_data) extra term0
        = Ok sec ->
      Py.index class_data 2 = Ok line2 ->
      exists f day_string ds,
        class_fields sec = Some f /\ day_string_of days_times = Ok day_string
        /\ days f = Some ds /\ chunked day_string ds)
  /\ (forall (self self' : PittSection) (child : Tag),
        is_link child ->
        PittSection_parse_child self (Element child) = Ok self' ->
        Py.index (class_data_of child) 2 = Ok line2 ->
        exists f day_string ds,
          class_fields self' = Some f /\ day_string_of days_times = Ok day_string
          /\ days f = Some ds /\ chunked day_string ds).
Proof.
  intros Hx Hne.
  assert (Hcore : forall class_data f,
             class_data_fields class_data = Ok f ->
             Py.index class_data 2 = Ok line2 ->
             exists day_string ds,
               day_string_of days_times = Ok day_string
               /\ days f = Some ds /\ chunked day_string ds).
  { intros cd f Hcd Hline.
    destruct (class_data_fields_days _ _ Hcd) as (l2 & Hl2 & Hdt).
    rewrite Hline in Hl2. inversion Hl2; subst l2.
    destruct (days_and_times_not_TBA _ _ _ _ Hx Hne Hdt)
      as (day_string & st & fin & Hds & _ & Hd & _).
    exists day_string, (day_chunks day_string).
    repeat split; auto; apply day_chunks_chunked. }
  split.
  - intros parent course u cd extra term0 sec Hinit Hline.
    destruct (PittSection_init_fields _ _ _ _ _ _ _ Hinit) as (f & Hf & Hcd).
    destruct (Hcore _ _ Hcd Hline) as (day_string & ds & H).
    exists f, day_string, ds. tauto.
  - intros self self' child Hl Hp Hline.
    destruct (parse_link_fields _ _ _ Hl Hp) as (f & Hf & Hcd).
    destruct (Hcore _ _ Hcd Hline) as (day_string & ds & H).
    exists f, day_string, ds. tauto.
Qed.

(** *** Dicts as association lists *)

Lemma contains_nil {V : Type} (k : string) : Py.contains (@nil (string * V)) k = false.
Proof. reflexivity. Qed.

Lemma contains_hit {V : Type} (k : string) (v : V) l :
  Py.contains ((k, v) :: l) k = true.
Proof. unfold Py.contains. simpl. now rewrite String.eqb_refl. Qed.

Lemma contains_skip {V : Type} (k k' : string) (v : V) l :
  k' <> k -> Py.contains ((k', v) :: l) k = Py.contains l k.
Proof.
  intro H. apply String.eqb_neq in H. unfold Py.contains. simpl. now rewrite H.
Qed.

Lemma getitem_hit {V : Type} (k : string) (v : V) l :
  Py.getitem ((k, v) :: l) k = Ok v.
Proof. unfold Py.getitem. simpl. now rewrite String.eqb_refl. Qed.

Lemma getitem_skip {V : Type} (k k' : string) (v : V) l :
  k' <> k -> Py.getitem ((k', v) :: l) k = Py.getitem l k.
Proof.
  intro H. apply String.eqb_neq in H. unfold Py.getitem. simpl. now rewrite H.
Qed.

Lemma contains_In {V : Type} (d : list (string * V)) (k : string) :
  Py.contains d k = true <-> In k (map fst d).
Proof.
  induction d as [|[k' v] d IH].
  - simpl. split; [discriminate | tauto].
  - destruct (String.eqb_spec k' k) as [->|Hne].
    + rewrite contains_hit. simpl. tauto.
    + rewrite (contains_skip _ _ _ _ Hne), IH. simpl. tauto.
Qed.

Lemma contains_getitem {V : Type} (d : list (string * V)) (k : string) :
  Py.contains d k = true -> exists v, Py.getitem d k = Ok v /\ In (k, v) d.
Proof.
  induction d as [|[k' v] d IH].
  - discriminate.
  - destruct (String.eqb_spec k' k) as [->|Hne].
    + intros _. exists v. rewrite getitem_hit. simpl. auto.
    + rewrite (contains_skip _ _ _ _ Hne), (getitem_skip _ _ _ _ Hne).
      intro H. destruct (IH H) as (v0 & Hg & Hin). exists v0. simpl. auto.
Qed.

Lemma append_at_hit (k : string) (c : PittCourse) (sec : PittSection) l :
  append_at k sec ((k, c) :: l)
  = (k, mkPittCourse (head c) (sections c ++ [sec])) :: append_at k sec l.
Proof. unfold append_at. simpl. now rewrite String.eqb_refl. Qed.

Lemma append_at_skip (k k' : string) (c : PittCourse) (sec : PittSection) l :
  k' <> k -> append_at k sec ((k', c) :: l) = (k', c) :: append_at k sec l.
Proof.
  intro H. apply String.eqb_neq in H. unfold append_at. simpl. now rewrite H.
Qed.

Lemma append_at_keys (k : string) (sec : PittSection) l :
  map fst (append_at k sec l) = map fst l.
Proof.
  unfold append_at. rewrite map_map. apply map_ext.
  intros [k' c]. simpl. destruct (String.eqb k' k); reflexivity.
Qed.

(** *** PittSubject.parse_webpage *)

(** The guard [any(child != i for i in ['\n', ' '])] holds of every node:
    no node equals both strings. Text nodes are left out by the
    [isinstance(child, Tag)] test. *)
Lemma not_blank_always (child : PageElement) : not_blank child = true.
Proof.
  destruct child as [s|t]; [|reflexivity].
  unfold not_blank, element_ne. simpl.
  destruct (String.eqb_spec s LF) as [->|_]; reflexivity.
Qed.

Lemma parse_child_string (r : SubjectRef) (st : SubjectScan) (s : string) :
  PittSubject_parse_child r st (NavigableString s) = Ok st.
Proof.
  unfold PittSubject_parse_child. destruct st as [cs c].
  destruct (not_blank (NavigableString s)); reflexivity.
Qed.

Lemma for_each_tags (r : SubjectRef) (nodes : list PageElement) (st : SubjectScan) :
  Py.for_each (PittSubject_parse_child r) nodes st
  = Py.for_each (PittSubject_parse_child r) (map Element (tags_of nodes)) st.
Proof.
  revert st. induction nodes as [|[s|t] nodes IH]; intro st.
  - reflexivity.
  - cbn [Py.for_each tags_of]. rewrite parse_child_string. simpl. apply IH.
  - cbn [Py.for_each tags_of map].
    destruct (PittSubject_parse_child r st (Element t)); simpl; auto.
Qed.

Lemma parse_child_description (r : SubjectRef) cs c (t : Tag) (n : string) :
  is_description t ->
  description_number t = Ok n ->
  PittSubject_parse_child r (cs, c) (Element t)
  = (let cs' := if negb (Py.contains cs n)
                then cs ++ [(n, PittCourse_init (Some r) n None None)]
                else cs in
     found <- Py.getitem cs' n ;; Ok (cs', Some (head found))).
Proof.
  intros [Hc Ht] Hn. unfold PittSubject_parse_child.
  rewrite not_blank_always, Hc. simpl.
  apply String.eqb_neq in Ht. rewrite Ht. simpl.
  unfold description_number in Hn.
  destruct (Py.index (Py.split (text t) " - ") 0) as [first|e]; simpl in *;
    [|discriminate].
  rewrite Hn. reflexivity.
Qed.

Lemma parse_child_link (r : SubjectRef) cs (c : CourseHead) (t : Tag)
    (sec : PittSection) :
  is_link t ->
  link_section r c t = Ok sec ->
  PittSubject_parse_child r (cs, Some c) (Element t)
  = Ok (append_at (c_number c) sec cs, Some c).
Proof.
  intros Hl Hs. unfold PittSubject_parse_child.
  rewrite not_blank_always. unfold is_link in Hl. rewrite Hl. simpl.
  unfold link_section in Hs.
  destruct (Py.getitem (attrs t) "href") as [u|e]; simpl in *; [|discriminate].
  rewrite Hs. reflexivity.
Qed.

(** C3 (as the code has it). A results document whose tags are, in order,
    a description node, two link nodes, a description node and one link
    node, the two descriptions announcing different course numbers and
    every link node yielding a section, parses into a fresh subject with
    exactly the two courses, in document order, holding the first two
    sections and the third one: section counts [2, 1]. *)
Theorem parse_two_courses (subject0 term0 resp : string)
    (classes : list PageElement) (d1 l1 l2 d2 l3 : Tag) (n1 n2 : string)
    (s1 s2 s3 : PittSection) :
  let self := PittSubject_init subject0 term0 in
  let h1 := mkCourseHead (Some (ref_of self)) None None n1 in
  let h2 := mkCourseHead (Some (ref_of self)) None None n2 in
  primary_head_parent_contents resp = Ok classes ->
  tags_of classes = [d1; l1; l2; d2; l3] ->
  is_description d1 -> description_number d1 = Ok n1 ->
  is_description d2 -> description_number d2 = Ok n2 ->
  n1 <> n2 ->
  is_link l1 -> link_section (ref_of self) h1 l1 = Ok s1 ->
  is_link l2 -> link_section (ref_of self) h1 l2 = Ok s2 ->
  is_link l3 -> link_section (ref_of self) h2 l3 = Ok s3 ->
  exists subj,
    PittSubject_parse_webpage self resp = Ok subj
    /\ _courses subj = [(n1, mkPittCourse h1 [s1; s2]); (n2, mkPittCourse h2 [s3])]
    /\ courses subj = [n1; n2]
    /\ section_counts subj = [2; 1].
Proof.
  intros self h1 h2 Hdoc Htags Hd1 Hn1 Hd2 Hn2 Hne Hl1 Hs1 Hl2 Hs2 Hl3 Hs3.
  assert (E12 : String.eqb n1 n2 = false) by now apply String.eqb_neq.
  unfold PittSubject_parse_webpage. rewrite Hdoc. cbn [bind].
  rewrite for_each_tags, Htags. cbn [map Py.for_each _courses self PittSubject_init].
  rewrite (parse_child_description _ _ _ _ _ Hd1 Hn1).
  rewrite contains_nil. cbn [negb app].
  rewrite getitem_hit. cbn [bind PittCourse_init head]. fold h1.
  rewrite (parse_child_link _ _ _ _ _ Hl1 Hs1). cbn [bind c_number h1].
  rewrite append_at_hit. cbn [sections head app].
  rewrite (parse_child_link _ _ _ _ _ Hl2 Hs2). cbn [bind c_number h1].
  rewrite append_at_hit. cbn [sections head app append_at map].
  rewrite (parse_child_description _ _ _ _ _ Hd2 Hn2).
  rewrite (contains_skip _ _ _ _ Hne), contains_nil. cbn [negb app].
  rewrite (getitem_skip _ _ _ _ Hne), getitem_hit.
  cbn [bind PittCourse_init head]. fold h2.
  rewrite (parse_child_link _ _ _ _ _ Hl3 Hs3). cbn [bind c_number h2].
  rewrite (append_at_skip _ _ _ _ _ Hne), append_at_hit.
  cbn [sections head app append_at map].
  eexists. split; [reflexivity|]. cbn. auto.
Qed.

(** *** The keys of the course mapping *)

Lemma NoDup_snoc {A : Type} (l : list A) (a : A) :
  NoDup l -> ~ In a l -> NoDup (l ++ [a]).
Proof.
  induction 1 as [|x l Hx Hl IH]; intro Ha; simpl.
  - constructor; [tauto | constructor].
  - constructor.
    + rewrite in_app_iff. simpl in *. intuition congruence.
    + apply IH. simpl in Ha. tauto.
Qed.

(** One turn of the loop either leaves the keys alone or adds, at the end,
    the number of the description node it has just read. *)
Lemma parse_child_keys (r : SubjectRef) cs c (child : PageElement) cs' c' :
  PittSubject_parse_child r (cs, c) child = Ok (cs', c') ->
  (map fst cs' = map fst cs
   /\ forall t n, child = Element t -> is_description t ->
                  description_number t = Ok n -> In n (map fst cs))
  \/ (exists t n, child = Element t /\ is_description t
                  /\ description_number t = Ok n
                  /\ ~ In n (map fst cs)
                  /\ map fst cs' = map fst cs ++ [n]).
Proof.
  intro H. destruct child as [s|t].
  - rewrite parse_child_string in H. inversion H; subst.
    left. split; [reflexivity | discriminate].
  - unfold PittSubject_parse_child in H. rewrite not_blank_always in H.
    destruct (Py.contains (attrs t) "class") eqn:Hc; cbn [negb] in H.
    + destruct (String.eqb_spec (text t) "") as [He|Hne]; cbn [negb] in H.
      * inversion H; subst. left. split; [reflexivity|].
        intros t0 n Heq [_ Ht]. inversion Heq; subst. contradiction.
      * assert (Hd : is_description t) by (split; assumption).
        inv_bind H. inv_bind H. inv_bind H. inversion H; subst; clear H.
        assert (Hn : description_number t = Ok a0).
        { unfold description_number. rewrite E. simpl. exact E0. }
        destruct (Py.contains cs a0) eqn:Hin; cbn [negb] in *.
        -- left. split; [reflexivity|].
           intros t0 n Heq _ Hn0. inversion Heq; subst.
           rewrite Hn in Hn0. inversion Hn0; subst. now apply contains_In.
        -- right. exists t, a0. repeat split; auto.
           ++ intro Hk. apply contains_In in Hk. congruence.
           ++ rewrite map_app. reflexivity.
    + inv_bind H. destruct c as [hc|]; [|discriminate].
      inv_bind H. inversion H; subst; clear H.
      left. split; [apply append_at_keys|].
      intros t0 n Heq [Hc' _]. inversion Heq; subst. congruence.
Qed.

Lemma for_each_keys (r : SubjectRef) (nodes : list PageElement) :
  forall cs c cs' c',
    Py.for_each (PittSubject_parse_child r) nodes (cs, c) = Ok (cs', c') ->
    NoDup (map fst cs) ->
    NoDup (map fst cs')
    /\ (forall k, In k (map fst cs) -> In k (map fst cs'))
    /\ (forall k, In k (map fst cs') ->
          In k (map fst cs)
          \/ exists t, In (Element t) nodes /\ is_description t
                       /\ description_number t = Ok k)
    /\ (forall t k, In (Element t) nodes -> is_description t ->
          description_number t = Ok k -> In k (map fst cs')).
Proof.
  induction nodes as [|child nodes IH]; intros cs c cs' c' H Hnd.
  - simpl in H. inversion H; subst. repeat split; auto. intros t k [].
  - cbn [Py.for_each] in H. inv_bind H. destruct a as [cs1 c1].
    assert (Hstep := parse_child_keys _ _ _ _ _ _ E).
    assert (Hnd1 : NoDup (map fst cs1)).
    { destruct Hstep as [[Hk _] | (t & n & _ & _ & _ & Hnin & Hk)]; rewrite Hk;
        [assumption | now apply NoDup_snoc]. }
    assert (Hmono : forall k, In k (map fst cs) -> In k (map fst cs1)).
    { intros k Hk.
      destruct Hstep as [[Hs _] | (t & n & _ & _ & _ & _ & Hs)]; rewrite Hs;
        [assumption | apply in_app_iff; now left]. }
    destruct (IH _ _ _ _ H Hnd1) as (Hnd' & Hmono' & Hfrom & Hall).
    repeat split.
    + exact Hnd'.
    + auto.
    + intros k Hk. destruct (Hfrom k Hk) as [Hk1 | (t & Hin & Hd & Hn)].
      * destruct Hstep as [[Hs _] | (t & n & -> & Hd & Hn & _ & Hs)];
          rewrite Hs in Hk1; [now left|].
        apply in_app_iff in Hk1. destruct Hk1 as [Hk1 | [<- | []]]; [now left|].
        right. exists t. simpl. auto.
      * right. exists t. simpl. auto.
    + intros t k [Heq | Hin] Hd Hn.
      * apply Hmono'. subst child.
        destruct Hstep as [[_ Hs] | (t0 & n & Heq & _ & Hn0 & _ & Hs)].
        -- apply Hmono. eapply Hs; eauto.
        -- inversion Heq; subst. rewrite Hn in Hn0. inversion Hn0; subst.
           rewrite Hs. apply in_app_iff. right. simpl. auto.
      * eapply Hall; eauto.
Qed.

(** A string key is looked up under its validated form. *)
Lemma getitem_validated (self : PittSubject) (s k : string) :
  _validate_course (PyStr s) = Ok k ->
  In k (courses self) ->
  exists c, PittSubject_getitem self (PyStr s) = Ok (Some c)
            /\ In (k, c) (_courses self).
Proof.
  intros Hv Hk. unfold PittSubject_getitem. rewrite Hv. cbn [bind].
  apply contains_In in Hk. rewrite Hk.
  destruct (contains_getitem _ _ Hk) as (c & Hg & Hin).
  exists c. rewrite Hg. auto.
Qed.

Lemma getitem_absent (self : PittSubject) (s k : string) :
  _validate_course (PyStr s) = Ok k ->
  ~ In k (courses self) ->
  PittSubject_getitem self (PyStr s) = Raise ValueError.
Proof.
  intros Hv Hk. unfold PittSubject_getitem. rewrite Hv. cbn [bind].
  destruct (Py.contains (_courses self) k) eqn:Hc; [|reflexivity].
  apply contains_In in Hc. contradiction.
Qed.

(** C2 (as the code has it). After a parse of a results document the keys
    of the course mapping are pairwise distinct, and they are the keys
    held before together with the course numbers announced by the
    document's description nodes, each kept as it is written: the parser
    pads nothing. [__getitem__] looks a string up under its validated
    (padded) form: it returns the course stored under that form when the
    form is a key, and raises ValueError when it is not, or when the
    string has more than four characters. *)
Theorem parse_keys (self subj : PittSubject) (resp : string)
    (classes : list PageElement) :
  NoDup (courses self) ->
  primary_head_parent_contents resp = Ok classes ->
  PittSubject_parse_webpage self resp = Ok subj ->
  NoDup (courses subj)
  /\ (forall k, In k (courses subj) <->
        In k (courses self)
        \/ exists t, In (Element t) classes /\ is_description t
                     /\ description_number t = Ok k)
  /\ (forall s k, _validate_course (PyStr s) = Ok k ->
        (In k (courses subj) ->
           exists c, PittSubject_getitem subj (PyStr s) = Ok (Some c)
                     /\ In (k, c) (_courses subj))
        /\ (~ In k (courses subj) ->
             PittSubject_getitem subj (PyStr s) = Raise ValueError))
  /\ (forall s e, _validate_course (PyStr s) = Raise e ->
        PittSubject_getitem subj (PyStr s) = Raise ValueError).
Proof.
  intros Hnd Hdoc H. unfold PittSubject_parse_webpage in H.
  rewrite Hdoc in H. cbn [bind] in H.
  inv_bind H. destruct a as [cs c]. inversion H; subst; clear H.
  destruct (for_each_keys _ _ _ _ _ _ E Hnd) as (Hnd' & Hmono & Hfrom & Hall).
  unfold courses at 1 2. cbn [_courses].
  split; [exact Hnd'|]. split; [|split].
  - intro k. split; [apply Hfrom|].
    intros [Hk | (t & Hin & Hd & Hn)]; [now apply Hmono | eapply Hall; eauto].
  - intros s k Hv. split; [now apply getitem_validated | now apply getitem_absent].
  - intros s e Hv. unfold PittSubject_getitem. rewrite Hv. cbn [bind].
    unfold _validate_course in Hv.
    destruct (String.length s <? 4)%nat; [discriminate|].
    destruct (4 <? String.length s)%nat; [|discriminate].
    now inversion Hv.
Qed.

(** *** The extra-details cache *)

Lemma extra_details_hit (self : PittSection) (w : World) (e : ExtraMap) :
  _extra self = Some e -> extra_details self w = (Ok e, self, w).
Proof. intro H. unfold extra_details. now rewrite H. Qed.

Lemma requests_get_log (u : string) (w w1 : World) r :
  requests_get u w = (r, w1) -> requests w1 = requests w ++ [u].
Proof.
  unfold requests_get. destruct (respond u (server w)) as [r0 sv].
  intro H. inversion H; subst. reflexivity.
Qed.

(** A read that returns has either found the cache filled, and touched
    nothing, or has issued one GET and filled the cache with what it
    returns. *)
Lemma extra_details_Ok (self self1 : PittSection) (w w1 : World) (m : ExtraMap) :
  extra_details self w = (Ok m, self1, w1) ->
  (_extra self = Some m /\ self1 = self /\ w1 = w)
  \/ (_extra self = None /\ self1 = set_extra self m
      /\ requests w1 = requests w ++ [url self]).
Proof.
  unfold extra_details. destruct (_extra self) as [e|] eqn:He.
  - intro H. inversion H; subst. left. auto.
  - destruct (requests_get (url self) w) as [resp w2] eqn:Hg.
    apply requests_get_log in Hg.
    destruct (t <- resp ;; fetched_extra t) as [[data extra]|e]; [|discriminate].
    destruct (with_class_attributes data extra) as [extra'|e]; [|discriminate].
    intro H. inversion H; subst. right. auto.
Qed.

(** C8. After a read of [extra_details] that returned a mapping, a second
    read on the same section returns that mapping and leaves the section
    and the world, hence the list of requests, as they were: no network
    call. When the cache was empty before the first read, the two reads
    together issue exactly one GET, to the section's URL; a cache that is
    already filled is never filled again. *)
Theorem extra_details_cached (self self1 : PittSection) (w w1 : World)
    (m : ExtraMap) :
  extra_details self w = (Ok m, self1, w1) ->
  extra_details self1 w1 = (Ok m, self1, w1)
  /\ _extra self1 = Some m
  /\ (_extra self = None -> requests w1 = requests w ++ [url self])
  /\ (forall e, _extra self = Some e -> m = e /\ self1 = self /\ w1 = w).
Proof.
  intro H.
  destruct (extra_details_Ok _ _ _ _ _ H)
    as [(He & -> & ->) | (He & -> & Hlog)].
  - split; [exact H|]. split; [exact He|]. split; [congruence|].
    intros e He'. rewrite He in He'. inversion He'. auto.
  - split; [now apply extra_details_hit|]. split; [reflexivity|].
    split; [auto|]. intros e He'. congruence.
Qed.

(** *** to_dict *)






(** ** Further properties of the module *)

(** *** [str.split] and [extract] *)

Lemma append_nil_r (s : string) : (s ++ "")%string = s.
Proof. induction s as [|c s IH]; simpl; [reflexivity | now rewrite IH]. Qed.

Lemma append_assoc (a b c : string) : ((a ++ b) ++ c)%string = (a ++ b ++ c)%string.
Proof. induction a as [|x a IH]; simpl; [reflexivity | now rewrite IH]. Qed.

Lemma prefix_app (p s : string) : prefix p (p ++ s) = true.
Proof.
  induction p as [|c p IH]; simpl; [now destruct s|].
  destruct (ascii_dec c c) as [_|n]; [exact IH | now elim n].
Qed.

(** A prefix that fits in the first part of a concatenation is a prefix
    of that part. *)
Lemma prefix_app_short (p u v : string) :
  String.length p <= String.length u ->
  prefix p (u ++ v) = prefix p u.
Proof.
  revert u. induction p as [|c p IH]; intros u Hlen.
  - simpl. now destruct u, v.
  - destruct u as [|d u]; simpl in *; [lia|].
    destruct (ascii_dec c d); [apply IH; lia | reflexivity].
Qed.

Lemma split_aux_skip (sep pre rest cur : string) :
  Py.split_aux sep (pre ++ rest) (String.length pre) cur
  = Py.split_aux sep rest 0 cur.
Proof. induction pre as [|c pre IH]; simpl; [reflexivity | exact IH]. Qed.

Lemma str_contains_suffix (sep y x : string) :
  Py.str_contains sep (y ++ x) = false -> Py.str_contains sep x = false.
Proof.
  induction y as [|c y IH]; simpl; [auto|].
  intro H. apply orb_false_iff in H. destruct H as [_ H]. auto.
Qed.

Lemma length_but_last (c : ascii) (s : string) :
  String.length (but_last (String c s)) = String.length s.
Proof.
  revert c. induction s as [|d s IH]; intro c; [reflexivity|].
  change (but_last (String c (String d s))) with (String c (but_last (String d s))).
  cbn [String.length]. now rewrite IH.
Qed.

Lemma but_last_snoc (s : string) :
  s <> EmptyString -> exists l, s = (but_last s ++ String l EmptyString)%string.
Proof.
  induction s as [|c s IH]; intro H; [now elim H|].
  destruct s as [|d s].
  - exists c. reflexivity.
  - destruct IH as [l Hl]; [discriminate|]. exists l.
    change (but_last (String c (String d s))) with (String c (but_last (String d s))).
    change (String c (String d s)
            = String c (but_last (String d s) ++ String l "")%string).
    now rewrite <- Hl.
Qed.

(** An occurrence of the separator that starts inside [a] lies inside [a]
    followed by the separator without its last character. *)
Lemma split_aux_first (sep a b : string) :
  sep <> EmptyString ->
  Py.str_contains sep (a ++ but_last sep) = false ->
  forall cur,
    Py.split_aux sep (a ++ sep ++ b) 0 cur
    = (cur ++ a)%string :: Py.split_aux sep b 0 EmptyString.
Proof.
  intros Hsep. induction a as [|c a IH]; intros Hno cur.
  - destruct sep as [|c0 sep']; [now elim Hsep|].
    rewrite append_nil_r.
    change (("" ++ String c0 sep' ++ b)%string) with (String c0 (sep' ++ b)).
    cbn [Py.split_aux].
    change (String c0 (sep' ++ b)) with (String c0 sep' ++ b)%string.
    rewrite prefix_app. f_equal.
    replace (String.length (String c0 sep') - 1) with (String.length sep')
      by (simpl; lia).
    apply split_aux_skip.
  - change ((String c a ++ sep ++ b)%string) with (String c (a ++ sep ++ b)).
    cbn [Py.split_aux].
    assert (Hp : prefix sep (String c (a ++ sep ++ b)) = false).
    { simpl in Hno. apply orb_false_iff in Hno. destruct Hno as [Hp _].
      destruct (but_last_snoc sep Hsep) as [l Hl].
      rewrite Hl at 2.
      change (String c (a ++ (but_last sep ++ String l "") ++ b))
        with (String c a ++ (but_last sep ++ String l "") ++ b)%string.
      rewrite append_assoc, <- (append_assoc (String c a)).
      rewrite prefix_app_short; [exact Hp|].
      rewrite length_app. destruct sep as [|c0 sep']; [now elim Hsep|].
      rewrite length_but_last. simpl. lia. }
    rewrite Hp.
    rewrite IH.
    + rewrite append_assoc. reflexivity.
    + simpl in Hno. apply orb_false_iff in Hno. tauto.
Qed.

Lemma split_aux_none (sep s : string) :
  sep <> EmptyString ->
  Py.str_contains sep s = false ->
  forall cur, Py.split_aux sep s 0 cur = [(cur ++ s)%string].
Proof.
  intro Hsep. induction s as [|c s IH]; intros Hno cur.
  - simpl. now rewrite append_nil_r.
  - cbn [Py.str_contains] in Hno. apply orb_false_iff in Hno.
    destruct Hno as [Hp Hno].
    cbn [Py.split_aux]. rewrite Hp, (IH Hno), append_assoc. reflexivity.
Qed.

(** [s.split(sep)] on a string that holds the separator: the part before
    its first occurrence, then the pieces of the rest. *)
Lemma split_first (sep a b : string) :
  sep <> EmptyString ->
  Py.str_contains sep (a ++ but_last sep) = false ->
  Py.split (a ++ sep ++ b) sep = a :: Py.split b sep.
Proof.
  intros Hsep Hno. unfold Py.split. now rewrite split_aux_first.
Qed.

Lemma split_none (sep s : string) :
  sep <> EmptyString ->
  Py.str_contains sep s = false ->
  Py.split s sep = [s].
Proof. intros Hsep Hno. unfold Py.split. now rewrite split_aux_none. Qed.

Lemma split_nonempty (sep s : string) : exists p ps, Py.split s sep = p :: ps.
Proof.
  unfold Py.split. generalize 0 as k. generalize EmptyString as cur.
  induction s as [|c s IH]; intros cur k.
  - simpl. eauto.
  - cbn [Py.split_aux]. destruct k as [|k]; [|apply IH].
    destruct (prefix sep (String c s)); [eauto | apply IH].
Qed.

Lemma extract_plain (label value : string) :
  Py.str_contains ": " (label ++ ":") = false ->
  Py.str_contains ": " value = false ->
  extract (label ++ ": " ++ value) = Ok value.
Proof.
  intros Hl Hv. unfold extract.
  rewrite (split_first ": " label value), (split_none ": " value);
    [reflexivity | discriminate | exact Hv | discriminate | exact Hl].
Qed.

(** X1. On a line [label: value] whose label holds no [": "], [extract]
    returns the value up to its own first [": "]: the whole value when
    it holds none, and only its first piece otherwise. A line without
    [": "] raises IndexError. *)
Theorem extract_label_value (label value : string) :
  Py.str_contains ": " (label ++ ":") = false ->
  (Py.str_contains ": " value = false ->
     extract (label ++ ": " ++ value) = Ok value)
  /\ (forall v rest,
        Py.str_contains ": " (v ++ ":") = false ->
        value = (v ++ ": " ++ rest)%string ->
        extract (label ++ ": " ++ value) = Ok v)
  /\ (Py.str_contains ": " label = false -> extract label = Raise IndexError).
Proof.
  intro Hl. assert (Hsep : ": "%string <> EmptyString) by discriminate.
  split; [|split].
  - intro Hv. unfold extract.
    rewrite (split_first ": " label value Hsep Hl), (split_none _ _ Hsep Hv).
    reflexivity.
  - intros v rest Hv ->. unfold extract.
    rewrite (split_first ": " label _ Hsep Hl), (split_first ": " v rest Hsep Hv).
    reflexivity.
  - intro Hn. unfold extract. rewrite (split_none _ _ Hsep Hn). reflexivity.
Qed.

(** *** A link record, printed and read back *)

Lemma str_contains_app (sep a b : string) :
  Py.str_contains sep (a ++ sep ++ b) = true.
Proof.
  induction a as [|c a IH].
  - change (("" ++ sep ++ b)%string) with (sep ++ b)%string.
    destruct (sep ++ b)%string eqn:E; cbn [Py.str_contains];
      rewrite <- E, prefix_app; reflexivity.
  - change ((String c a ++ sep ++ b)%string) with (String c (a ++ sep ++ b)).
    cbn [Py.str_contains]. rewrite IH. apply orb_true_r.
Qed.

Lemma days_and_times_meeting (label : string) (m : option (string * string * string)) :
  ends_clear ": " label ->
  lacks ": " (meeting_value m) ->
  meeting_well_formed m ->
  days_and_times (label ++ ": " ++ meeting_value m)
  = Ok (meeting_days m, meeting_times m).
Proof.
  intros Hl Hv Hm. unfold days_and_times.
  rewrite (extract_plain label (meeting_value m) Hl Hv). cbn [bind].
  destruct m as [[[ds st] fin]|]; [|reflexivity].
  destruct Hm as (Hds & Hst & Hclear & Hfin).
  assert (Hne : String.eqb (meeting_value (Some (ds, st, fin))) "TBA" = false).
  { apply String.eqb_neq. intro E.
    assert (Hc := str_contains_app " " ds (st ++ " - " ++ fin)).
    cbn [meeting_value] in E. rewrite E in Hc. discriminate Hc. }
  rewrite Hne. cbn [negb meeting_value].
  rewrite <- (append_assoc ds " " (st ++ " - " ++ fin)).
  rewrite <- (append_assoc (ds ++ " ") st (" - " ++ fin)).
  rewrite (append_assoc ds " " st).
  rewrite (split_first " - " (ds ++ " " ++ st) fin); [|discriminate | exact Hclear].
  rewrite (split_none " - " fin); [|discriminate | exact Hfin].
  cbn [Py.index nth_error bind].
  rewrite (split_first " " ds st); [|discriminate|].
  - rewrite (split_none " " st); [|discriminate | exact Hst].
    cbn [Py.unpack2 bind Py.index nth_error meeting_days meeting_times app].
    now rewrite day_chunks_pairs.
  - unfold lacks in Hds. cbn [but_last]. now rewrite append_nil_r.
Qed.

(** X2. A well-formed link record, printed as its six lines and read
    back, gives its own fields: section and type from around the hyphen,
    the number from characters 1 to 5 of the token, the day-string in
    chunks and the two times (or nothing for ["TBA"]), room, instructor
    and the two dates as [strptime] reads them. *)
Theorem class_data_fields_render (r : LinkText) (d0 d1 : datetime) :
  well_formed r ->
  strptime (text_start r) = Some d0 ->
  strptime (text_end r) = Some d1 ->
  class_data_fields (render r)
  = Ok (mkClassFields (text_section r) (text_type r)
          (Py.slice (text_token r) 1 6)
          (meeting_days (text_meeting r)) (meeting_times (text_meeting r))
          (text_room r) (text_instructor r) d0 d1).
Proof.
  intros (Hl0 & Hl2 & Hl3 & Hl4 & Hl5 & Hv0 & Hv2 & Hv3 & Hv4 & Hv5
          & Hst & Htok & Hsec & Htyp & Hm & Hd0 & Hd1) Hs He.
  unfold class_data_fields, render.
  cbn [Py.index nth_error bind].
  rewrite (extract_plain _ (section_value r) Hl0 Hv0).
  cbn [bind]. unfold section_value.
  rewrite <- (append_assoc (text_section r) "-").
  rewrite <- (append_assoc (text_section r ++ "-") (text_type r)).
  rewrite (append_assoc (text_section r) "-" (text_type r)).
  rewrite (split_first " " _ (text_token r)); [|discriminate|].
  2:{ unfold lacks in Hst. cbn [but_last]. now rewrite append_nil_r. }
  rewrite (split_none " " (text_token r)); [|discriminate | exact Htok].
  cbn [Py.index nth_error bind].
  rewrite (split_first "-" (text_section r) (text_type r)); [|discriminate|].
  2:{ unfold lacks in Hsec. cbn [but_last]. now rewrite append_nil_r. }
  rewrite (split_none "-" (text_type r)); [|discriminate | exact Htyp].
  cbn [Py.unpack2 bind].
  rewrite (days_and_times_meeting _ _ Hl2 Hv2 Hm). cbn [bind].
  rewrite (extract_plain _ (text_room r) Hl3 Hv3). cbn [bind].
  rewrite (extract_plain _ (text_instructor r) Hl4 Hv4). cbn [bind].
  rewrite (extract_plain _ (dates_value r) Hl5 Hv5). cbn [bind].
  unfold dates_value.
  rewrite (split_first " - " (text_start r) (text_end r)); [|discriminate | exact Hd0].
  rewrite (split_none " - " (text_end r)); [|discriminate | exact Hd1].
  cbn [Py.index nth_error bind]. unfold strptime_mdY. rewrite Hs, He.
  reflexivity.
Qed.

(** *** What every parsed link record satisfies *)

Lemma length_substring_le (n m : nat) (s : string) :
  String.length (substring n m s) <= m.
Proof.
  revert n m. induction s as [|c s IH]; intros [|n] [|m]; simpl; try lia.
  - specialize (IH 0 m). lia.
  - apply (IH n 0).
  - apply (IH n (S m)).
Qed.

Lemma days_and_times_shape (line2 : string) d t :
  days_and_times line2 = Ok (d, t) ->
  (d = None /\ t = None)
  \/ (exists ds start finish, d = Some ds /\ t = Some [start; finish]).
Proof.
  unfold days_and_times. intro H. inv_bind H.
  destruct (negb (String.eqb a "TBA")).
  - inv_bind H. inv_bind H. destruct a1 as [ds st]. inv_bind H.
    inversion H; subst. right. eauto.
  - inversion H; subst. now left.
Qed.

Lemma index_Ok_length {A : Type} (xs : list A) (i : nat) (x : A) :
  Py.index xs i = Ok x -> i < List.length xs.
Proof.
  unfold Py.index. destruct (nth_error xs i) eqn:E; [|discriminate].
  intros _. apply nth_error_Some. congruence.
Qed.

Lemma PittSection_init_refs parent course class_section_url class_data extra term0
    (sec : PittSection) :
  PittSection_init parent course class_section_url class_data extra term0
    = Ok sec ->
  url sec = class_section_url /\ _extra sec = extra
  /\ s_parent_subject sec = parent /\ s_parent_course sec = course
  /\ s_term sec = term0
  /\ (class_data <> None -> class_fields sec <> None).
Proof.
  intro H. unfold PittSection_init in H. inv_bind H.
  inversion H; subst; clear H. cbn. repeat split.
  intros Hcd Ha. subst a. destruct class_data as [cd|]; [|now elim Hcd].
  inv_bind E. discriminate E.
Qed.

Lemma class_data_fields_parts (class_data : list string) (f : ClassFields) :
  class_data_fields class_data = Ok f ->
  exists line2 line5 token,
    Py.index class_data 2 = Ok line2
    /\ days_and_times line2 = Ok (days f, times f)
    /\ Py.index class_data 5 = Ok line5
    /\ number f = Py.slice token 1 6.
Proof.
  intro H. unfold class_data_fields in H.
  repeat (let a := fresh "a" in
          let E := fresh "E" in
          apply bind_Ok_inv in H; destruct H as (a & E & H);
          try (destruct a as [? ?])).
  inversion H; subst; clear H. cbn [number days times].
  do 3 eexists. repeat split; eassumption.
Qed.

(** X3. Whatever the text of the link node, a section the constructor
    returns has its class fields set, keeps the URL and the extra mapping
    it was given, was built from at least six lines, has a class number
    of at most five characters, and has [days] and [times] both [None]
    or both set, [times] then holding exactly two strings. *)
Theorem init_fields_shape parent course class_section_url class_data extra term0
    (sec : PittSection) :
  PittSection_init parent course class_section_url (Some class_data) extra term0
    = Ok sec ->
  6 <= List.length class_data
  /\ url sec = class_section_url /\ _extra sec = extra
  /\ s_parent_subject sec = parent /\ s_parent_course sec = course
  /\ exists f,
      class_fields sec = Some f
      /\ String.length (number f) <= 5
      /\ ((days f = None /\ times f = None)
          \/ exists ds start finish,
               days f = Some ds /\ times f = Some [start; finish]).
Proof.
  intro H. unfold PittSection_init in H.
  inv_bind H. inv_bind E. rename a0 into f. inversion E; subst; clear E.
  inversion H; subst; clear H.
  cbn [url _extra s_parent_subject s_parent_course class_fields].
  destruct (class_data_fields_parts _ _ E0) as (l2 & l5 & tok & _ & Hdt & H5 & Hn).
  split; [apply (index_Ok_length _ _ _ H5)|].
  repeat split; auto.
  exists f. split; [reflexivity|]. split.
  - rewrite Hn. unfold Py.slice. apply (length_substring_le 1 5).
  - eapply days_and_times_shape; eauto.
Qed.

(** *** Validators, continued *)

Lemma str_in_In (x : string) (xs : list string) :
  Py.str_in x xs = true <-> In x xs.
Proof.
  unfold Py.str_in. rewrite existsb_exists. split.
  - intros (y & Hy & E). apply String.eqb_eq in E. now subst.
  - intro H. exists x. split; [exact H | apply String.eqb_refl].
Qed.

Lemma valid_terms_match_code (s : string) :
  valid_terms_match s = true ->
  exists code rest, s = (code ++ rest)%string /\ is_term_code code.
Proof.
  destruct s as [|c0 [|c1 [|c2 [|c3 rest]]]]; simpl; try discriminate.
  intro H. repeat (apply andb_true_iff in H; destruct H as [H ?]).
  apply Ascii.eqb_eq in H. subst c0.
  exists (String "2" (String c1 (String c2 (String c3 EmptyString)))), rest.
  split; [reflexivity|]. exists c1, c2, c3. repeat split; auto.
  repeat match goal with
         | Hc : (_ || _)%bool = true |- _ =>
             apply orb_true_iff in Hc; destruct Hc as [Hc|Hc]
         | Hc : Ascii.eqb _ _ = true |- _ => apply Ascii.eqb_eq in Hc
         end; auto.
Qed.

(** X19. [_validate_term] returns exactly for the inputs whose string
    form begins with a term code (['2'], two digits, one of ['1'], ['4'],
    ['7']), and it returns that string form unchanged, whatever follows
    the first four characters. *)
Theorem validate_term_accepts (v : pyval) (r : string) :
  _validate_term v = Ok r <->
  (as_str v = Some r
   /\ exists code rest, r = (code ++ rest)%string /\ is_term_code code).
Proof.
  split.
  - intro H.
    assert (Hs : exists s, as_str v = Some s /\ _validate_term (PyStr s) = Ok r).
    { destruct v as [z|s|];
        [exists (Py.str_of_int z) | exists s | discriminate H];
        (split; [reflexivity | exact H]). }
    destruct Hs as (s & Has & Hv). unfold _validate_term in Hv.
    destruct (valid_terms_match s) eqn:Hm; [|discriminate].
    inversion Hv; subst. split; [exact Has|].
    now apply valid_terms_match_code.
  - intros (Has & code & rest & -> & Hc).
    assert (Hm : valid_terms_match (code ++ rest) = true).
    { apply valid_terms_match_app.
      assert (Hv := validate_term_code code Hc). unfold _validate_term in Hv.
      destruct (valid_terms_match code); [reflexivity | discriminate]. }
    destruct v as [z|s|]; cbn [as_str] in Has; inversion Has; subst.
    + unfold _validate_term. rewrite H0, Hm. reflexivity.
    + unfold _validate_term. now rewrite Hm.
Qed.

(** The listed codes are in upper case already. *)
Lemma upper_listed (c : string) : In c SUBJECTS -> Py.upper c = Some c.
Proof.
  intro H.
  assert (Hup : forallb (fun x => match Py.upper x with
                                  | Some u => String.eqb u x
                                  | None => false
                                  end) SUBJECTS = true)
    by (vm_compute; reflexivity).
  rewrite forallb_forall in Hup. specialize (Hup c H).
  destruct (Py.upper c) as [u|]; [|discriminate].
  apply String.eqb_eq in Hup. now subst.
Qed.

(** X4. [_validate_subject] returns the upper-cased input exactly when
    that is one of the listed subject codes, and raises ValueError
    otherwise (also when the upper-cased input leaves the 8-bit
    alphabet); it therefore gives the same answer for all spellings with
    the same upper-cased form, and accepts its own result unchanged. *)
Theorem validate_subject_upper (s : string) :
  (forall u, Py.upper s = Some u -> In u SUBJECTS -> _validate_subject s = Ok u)
  /\ ((forall u, Py.upper s = Some u -> ~ In u SUBJECTS) ->
      _validate_subject s = Raise ValueError)
  /\ (forall t, Py.upper t = Py.upper s -> _validate_subject t = _validate_subject s)
  /\ (forall r, _validate_subject s = Ok r ->
        Py.upper s = Some r /\ In r SUBJECTS /\ _validate_subject r = Ok r).
Proof.
  unfold _validate_subject. split; [|split; [|split]].
  - intros u Hu Hin. rewrite Hu. apply str_in_In in Hin. now rewrite Hin.
  - intro Hno. destruct (Py.upper s) as [u|]; [|reflexivity].
    destruct (Py.str_in u SUBJECTS) eqn:E; [|reflexivity].
    apply str_in_In in E. elim (Hno u eq_refl E).
  - intros t Ht. now rewrite Ht.
  - intros r H. destruct (Py.upper s) as [u|]; [|discriminate].
    destruct (Py.str_in u SUBJECTS) eqn:E; [|discriminate].
    inversion H; subst. assert (Hin := E). apply str_in_In in Hin.
    split; [reflexivity|]. split; [exact Hin|].
    now rewrite (upper_listed r Hin), E.
Qed.

(** X5. Every listed subject code is accepted as it is written. *)
Theorem validate_subject_listed (c : string) :
  In c SUBJECTS -> _validate_subject c = Ok c.
Proof.
  intro H. unfold _validate_subject. rewrite (upper_listed c H).
  apply str_in_In in H. now rewrite H.
Qed.

(** X6. Whenever [_validate_course] returns, its result has exactly four
    characters, ends with the string form of the input, and is returned
    unchanged when validated again; the empty string gives ["0000"]. *)
Theorem validate_course_result (course : pyval) (r : string) :
  _validate_course course = Ok r ->
  String.length r = 4
  /\ (exists s, as_str course = Some s
                /\ r = (Py.zeros (4 - String.length s) ++ s)%string)
  /\ _validate_course (PyStr r) = Ok r.
Proof.
  intro H.
  assert (Hs : exists s, as_str course = Some s
                         /\ _validate_course (PyStr s) = Ok r).
  { destruct course as [z|s|];
      [exists (Py.str_of_int z) | exists s | discriminate H];
      (split; [reflexivity | exact H]). }
  destruct Hs as (s & Has & Hv). clear H.
  assert (Hr : r = (Py.zeros (4 - String.length s) ++ s)%string
               /\ String.length r = 4).
  { unfold _validate_course in Hv.
    destruct (Nat.ltb_spec (String.length s) 4) as [Hlt|Hge].
    - injection Hv as <-. split; [reflexivity|].
      change (String.length (Py.zeros (4 - String.length s) ++ s) = 4).
      rewrite length_app, length_zeros. lia.
    - destruct (Nat.ltb_spec 4 (String.length s)) as [Hgt|Hle]; [discriminate|].
      injection Hv as <-. replace (4 - String.length s) with 0 by lia.
      split; [reflexivity | lia]. }
  destruct Hr as [Hr Hlen]. split; [exact Hlen|]. split; [eauto|].
  unfold _validate_course. rewrite Hlen. reflexivity.
Qed.

(** *** PittSubject.parse_webpage, continued *)

Lemma getitem_missing {V : Type} (d : list (string * V)) (k : string) :
  Py.contains d k = false -> Py.getitem d k = Raise KeyError.
Proof.
  induction d as [|[k' v] d IH]; [reflexivity|].
  destruct (String.eqb_spec k' k) as [->|Hne].
  - rewrite contains_hit. discriminate.
  - rewrite (contains_skip _ _ _ _ Hne), (getitem_skip _ _ _ _ Hne). exact IH.
Qed.

Lemma getitem_In {V : Type} (d : list (string * V)) (k : string) (v : V) :
  Py.getitem d k = Ok v -> In (k, v) d.
Proof.
  induction d as [|[k' v'] d IH]; [discriminate|].
  destruct (String.eqb_spec k' k) as [->|Hne].
  - rewrite getitem_hit. intro H. inversion H; subst. now left.
  - rewrite (getitem_skip _ _ _ _ Hne). intro H. right. auto.
Qed.

(** The three ways a turn of the loop can complete. *)
Lemma parse_child_cases (r : SubjectRef) cs c (child : PageElement) cs' c' :
  PittSubject_parse_child r (cs, c) child = Ok (cs', c') ->
  (cs' = cs /\ c' = c
   /\ ((exists s, child = NavigableString s)
       \/ exists t, child = Element t /\ ignored t))
  \/ (exists t h sec,
        child = Element t /\ is_link t /\ c = Some h /\ c' = c
        /\ link_section r h t = Ok sec
        /\ cs' = append_at (c_number h) sec cs)
  \/ (exists t n found,
        child = Element t /\ is_description t /\ description_number t = Ok n
        /\ cs' = (if Py.contains cs n then cs
                  else cs ++ [(n, PittCourse_init (Some r) n None None)])
        /\ Py.getitem cs' n = Ok found
        /\ c' = Some (head found)).
Proof.
  intro H. destruct child as [s|t].
  - rewrite parse_child_string in H. inversion H; subst. left. eauto.
  - unfold PittSubject_parse_child in H. rewrite not_blank_always in H.
    destruct (Py.contains (attrs t) "class") eqn:Hc; cbn [negb] in H.
    + destruct (String.eqb_spec (text t) "") as [He|Hne]; cbn [negb] in H.
      * inversion H; subst. left. repeat split; auto. right. exists t.
        split; [reflexivity | split; assumption].
      * inv_bind H. inv_bind H. inv_bind H. inversion H; subst; clear H.
        right. right. exists t, a0, a1. repeat split; auto.
        -- unfold description_number. rewrite E. exact E0.
        -- destruct (Py.contains cs a0); reflexivity.
    + inv_bind H. destruct c as [h|]; [|discriminate].
      inv_bind H. inversion H; subst; clear H.
      right. left. exists t, h, a0. repeat split; auto.
      unfold link_section. rewrite E. exact E0.
Qed.

Lemma parse_child_ignored (r : SubjectRef) (st : SubjectScan) (t : Tag) :
  ignored t -> PittSubject_parse_child r st (Element t) = Ok st.
Proof.
  intros [Hc Ht]. unfold PittSubject_parse_child. destruct st as [cs c].
  rewrite not_blank_always, Hc, Ht. reflexivity.
Qed.

(** X7. A link node that comes before every description node makes the
    subject-level parse fail, whatever follows it: with KeyError when the
    node has no [href], and with AttributeError (the current course is
    still [None]) when it has one. *)
Theorem parse_link_before_description (self : PittSubject) (resp : string)
    (classes : list PageElement) (pre rest : list Tag) (l : Tag) :
  primary_head_parent_contents resp = Ok classes ->
  tags_of classes = pre ++ l :: rest ->
  Forall ignored pre ->
  is_link l ->
  PittSubject_parse_webpage self resp
  = Raise (if Py.contains (attrs l) "href" then AttributeError else KeyError).
Proof.
  intros Hdoc Htags Hpre Hl. unfold PittSubject_parse_webpage.
  rewrite Hdoc. cbn [bind]. rewrite for_each_tags, Htags. clear Htags Hdoc.
  generalize (_courses self). intro cs.
  induction Hpre as [|t pre Ht _ IH].
  - cbn [app map Py.for_each]. unfold PittSubject_parse_child.
    rewrite not_blank_always. unfold is_link in Hl. rewrite Hl. cbn [negb].
    destruct (Py.contains (attrs l) "href") eqn:Hh.
    + destruct (contains_getitem _ _ Hh) as (u & -> & _). reflexivity.
    + rewrite (getitem_missing _ _ Hh). reflexivity.
  - cbn [app map Py.for_each]. rewrite (parse_child_ignored _ _ _ Ht).
    cbn [bind]. exact IH.
Qed.

Lemma link_section_refs (r : SubjectRef) (h : CourseHead) (t : Tag)
    (sec : PittSection) :
  link_section r h t = Ok sec ->
  s_parent_subject sec = Some r /\ s_parent_course sec = Some h
  /\ _extra sec = None /\ class_fields sec <> None.
Proof.
  unfold link_section. intro H. inv_bind H.
  destruct (PittSection_init_refs _ _ _ _ _ _ _ H)
    as (_ & He & Hp & Hc & _ & Hf).
  repeat split; auto. apply Hf. discriminate.
Qed.

Lemma append_at_filed (r : SubjectRef) (h : CourseHead) (sec : PittSection) cs :
  h = mkCourseHead (Some r) None None (c_number h) ->
  s_parent_subject sec = Some r -> s_parent_course sec = Some h ->
  _extra sec = None -> class_fields sec <> None ->
  Forall (filed r) cs -> Forall (filed r) (append_at (c_number h) sec cs).
Proof.
  intros Hh Hp Hc He Hf Hall. unfold append_at. apply Forall_map.
  eapply Forall_impl; [|exact Hall]. intros [k c] [Hhead Hsecs].
  cbn [fst snd] in *.
  destruct (String.eqb_spec k (c_number h)) as [->|Hne].
  - split; cbn [fst snd head sections]; [exact Hhead|].
    apply Forall_app. split; [exact Hsecs|].
    constructor; [|constructor]. rewrite Hhead, <- Hh. auto.
  - split; assumption.
Qed.

(** One turn of the loop keeps the entries filed, and the current course
    is the head of an entry. *)
Lemma parse_child_filed (r : SubjectRef) cs c (child : PageElement) cs' c' :
  PittSubject_parse_child r (cs, c) child = Ok (cs', c') ->
  Forall (filed r) cs ->
  (forall h, c = Some h -> h = mkCourseHead (Some r) None None (c_number h)
                           /\ In (c_number h) (map fst cs)) ->
  Forall (filed r) cs'
  /\ (forall h, c' = Some h -> h = mkCourseHead (Some r) None None (c_number h)
                               /\ In (c_number h) (map fst cs')).
Proof.
  intros E Hall Hcur.
  destruct (parse_child_cases _ _ _ _ _ _ E)
    as [(-> & -> & _)
       | [(t & h & sec & _ & _ & -> & -> & Hsec & ->)
         | (t & n & found & _ & _ & _ & Hcs & Hget & ->)]].
  - auto.
  - destruct (link_section_refs _ _ _ _ Hsec) as (Hp & Hc & He & Hf).
    destruct (Hcur h eq_refl) as [Hh Hin]. split.
    + apply append_at_filed; auto.
    + rewrite append_at_keys. exact Hcur.
  - assert (Hall1 : Forall (filed r) cs').
    { subst cs'. destruct (Py.contains cs n); [exact Hall|].
      apply Forall_app. split; [exact Hall|].
      constructor; [|constructor]. split; cbn; [reflexivity | constructor]. }
    split; [exact Hall1|].
    intros h Hh. inversion Hh; subst h.
    apply getitem_In in Hget. assert (Hin := Hget).
    rewrite Forall_forall in Hall1. destruct (Hall1 _ Hget) as [Hhead _].
    cbn [fst snd] in Hhead. rewrite Hhead. cbn [c_number]. split; [reflexivity|].
    apply (in_map fst) in Hin. exact Hin.
Qed.

Lemma for_each_filed (r : SubjectRef) (nodes : list PageElement) :
  forall cs c cs' c',
    Py.for_each (PittSubject_parse_child r) nodes (cs, c) = Ok (cs', c') ->
    Forall (filed r) cs ->
    (forall h, c = Some h -> h = mkCourseHead (Some r) None None (c_number h)
                             /\ In (c_number h) (map fst cs)) ->
    Forall (filed r) cs'.
Proof.
  induction nodes as [|child nodes IH]; intros cs c cs' c' H Hall Hcur.
  - simpl in H. inversion H; subst. exact Hall.
  - cbn [Py.for_each] in H. inv_bind H. destruct a as [cs1 c1].
    destruct (parse_child_filed _ _ _ _ _ _ E Hall Hcur) as [Hall1 Hcur1].
    eapply IH; eauto.
Qed.

(** X8. In a subject returned by [get_term_courses]-style parsing (a
    fresh subject), every course is stored under its own number and
    resolves its term and subject to the subject's, and every section
    resolves its term, subject and course number to those of the subject
    and of the course it is filed under; its class fields are set and its
    extra-details cache is empty. *)
Theorem parse_back_references (subject0 term0 resp : string) (subj : PittSubject) :
  PittSubject_parse_webpage (PittSubject_init subject0 term0) resp = Ok subj ->
  subject subj = subject0 /\ term subj = term0
  /\ forall k c, In (k, c) (_courses subj) ->
       c_number (head c) = k
       /\ PittCourse_term (head c) = Some term0
       /\ PittCourse_subject (head c) = Some subject0
       /\ forall sec, In sec (sections c) ->
            PittSection_term sec = Some term0
            /\ PittSection_subject sec = Some subject0
            /\ PittSection_course_number sec = Some k
            /\ _extra sec = None
            /\ class_fields sec <> None.
Proof.
  intro H. unfold PittSubject_parse_webpage in H.
  inv_bind H. inv_bind H. destruct a0 as [cs cur]. inversion H; subst; clear H.
  cbn [subject term _courses PittSubject_init].
  split; [reflexivity|]. split; [reflexivity|].
  assert (Hall : Forall (filed (mkSubjectRef subject0 term0)) cs).
  { eapply for_each_filed; [exact E0 | constructor | discriminate]. }
  intros k c Hin. rewrite Forall_forall in Hall.
  destruct (Hall _ Hin) as [Hhead Hsecs]. cbn [fst snd] in *.
  split; [now rewrite Hhead|].
  split; [now rewrite Hhead|]. split; [now rewrite Hhead|].
  intros sec Hsec. rewrite Forall_forall in Hsecs.
  destruct (Hsecs _ Hsec) as (Hp & Hc & He & Hf).
  unfold PittSection_term, PittSection_subject, PittSection_course_number.
  rewrite Hp, Hc, Hhead. cbn. auto.
Qed.

Lemma total_sections_append_at (k : string) (sec : PittSection) cs :
  NoDup (map fst cs) -> In k (map fst cs) ->
  total_sections (append_at k sec cs) = S (total_sections cs).
Proof.
  unfold total_sections. induction cs as [|[k' c] cs IH]; intros Hnd Hin.
  - destruct Hin.
  - cbn [map fst] in Hnd. inversion Hnd as [|? ? Hnotin Hnd']; subst.
    destruct (String.eqb_spec k' k) as [->|Hne].
    + rewrite append_at_hit. cbn [map snd sections list_sum].
      rewrite List.length_app. cbn [List.length].
      assert (Hsame : append_at k sec cs = cs).
      { clear IH Hnd Hin Hnd'. induction cs as [|[k2 c2] cs IHcs]; [reflexivity|].
        cbn [map fst] in Hnotin.
        rewrite append_at_skip by (intro; subst; apply Hnotin; now left).
        rewrite IHcs; [reflexivity|]. intro Hk. apply Hnotin. now right. }
      rewrite Hsame. unfold list_sum. cbn [fold_right]. lia.
    + rewrite (append_at_skip _ _ _ _ _ Hne). cbn [map snd].
      unfold list_sum in *. cbn [fold_right].
      rewrite IH; [lia | exact Hnd'|].
      destruct Hin as [Heq|Hin]; [cbn in Heq; congruence | exact Hin].
Qed.

Lemma total_sections_app cs cs2 :
  total_sections (cs ++ cs2) = total_sections cs + total_sections cs2.
Proof. unfold total_sections. now rewrite map_app, list_sum_app. Qed.

Lemma for_each_total (r : SubjectRef) (nodes : list PageElement) :
  forall cs c cs' c',
    Py.for_each (PittSubject_parse_child r) nodes (cs, c) = Ok (cs', c') ->
    NoDup (map fst cs) ->
    Forall (filed r) cs ->
    (forall h, c = Some h -> h = mkCourseHead (Some r) None None (c_number h)
                             /\ In (c_number h) (map fst cs)) ->
    total_sections cs' = total_sections cs + List.length (link_tags nodes).
Proof.
  induction nodes as [|child nodes IH]; intros cs c cs' c' H Hnd Hall Hcur.
  - simpl in H. inversion H; subst. cbn. lia.
  - cbn [Py.for_each] in H. inv_bind H. destruct a as [cs1 c1].
    assert (Hkeys := parse_child_keys _ _ _ _ _ _ E).
    destruct (parse_child_filed _ _ _ _ _ _ E Hall Hcur) as [Hall1 Hcur1].
    assert (Hnd1 : NoDup (map fst cs1)).
    { destruct Hkeys as [[Hk _] | (t0 & n0 & _ & _ & _ & Hnin & Hk)];
        rewrite Hk; [assumption | now apply NoDup_snoc]. }
    rewrite (IH _ _ _ _ H Hnd1 Hall1 Hcur1). clear IH H Hall1 Hcur1 Hnd1 Hkeys.
    destruct (parse_child_cases _ _ _ _ _ _ E)
      as [(-> & -> & Hskip)
         | [(t & h & sec & -> & Hl & -> & -> & Hsec & ->)
           | (t & n & found & -> & [Hcl _] & _ & Hcs & Hget & ->)]].
    + destruct Hskip as [[s ->] | (t & -> & [Hcl _])]; [reflexivity|].
      unfold link_tags. cbn [tags_of filter]. unfold is_link_b. now rewrite Hcl.
    + destruct (Hcur h eq_refl) as [_ Hin].
      rewrite total_sections_append_at by auto.
      unfold link_tags. cbn [tags_of filter]. unfold is_link_b.
      unfold is_link in Hl. rewrite Hl. cbn [negb List.length]. lia.
    + unfold link_tags. cbn [tags_of filter]. unfold is_link_b.
      rewrite Hcl. cbn [negb]. f_equal.
      subst cs1. destruct (Py.contains cs n); [reflexivity|].
      rewrite total_sections_app. cbn. lia.
Qed.

(** X9. When the subject-level parse of a document into a fresh subject
    returns, every link node of the document has become exactly one
    section: the courses hold, together, as many sections as the document
    has link nodes. *)
Theorem parse_section_total (subject0 term0 resp : string)
    (classes : list PageElement) (subj : PittSubject) :
  primary_head_parent_contents resp = Ok classes ->
  PittSubject_parse_webpage (PittSubject_init subject0 term0) resp = Ok subj ->
  total_sections (_courses subj) = List.length (link_tags classes).
Proof.
  intros Hdoc H. unfold PittSubject_parse_webpage in H. rewrite Hdoc in H.
  cbn [bind] in H. inv_bind H. destruct a as [cs cur].
  inversion H; subst; clear H. cbn [_courses].
  rewrite (for_each_total _ _ _ _ _ _ E);
    [reflexivity | constructor | constructor | discriminate].
Qed.

(** *** PittCourse.parse_webpage *)

Lemma course_child_cases (h : CourseHead) (secs secs' : list PittSection)
    (child : PageElement) :
  PittCourse_parse_child h secs child = Ok secs' ->
  (secs' = secs /\ link_tags [child] = [])
  \/ (exists t u sec,
        child = Element t /\ link_tags [child] = [t]
        /\ Py.getitem (attrs t) "href" = Ok u
        /\ PittSection_init (c_parent_subject h) (Some h) u
             (Some (class_data_of t)) None None = Ok sec
        /\ secs' = secs ++ [sec]).
Proof.
  unfold PittCourse_parse_child, link_tags, is_link_b. rewrite not_blank_always.
  destruct child as [s|t]; cbn [tags_of filter].
  - intro H. inversion H. now left.
  - destruct (Py.contains (attrs t) "class"); cbn [negb].
    + intro H. inversion H. now left.
    + intro H. inv_bind H. inv_bind H. inversion H; subst.
      right. exists t, a, a0. auto.
Qed.

Lemma link_tags_cons (child : PageElement) (nodes : list PageElement) :
  link_tags (child :: nodes) = link_tags [child] ++ link_tags nodes.
Proof.
  unfold link_tags. destruct child as [s|t]; cbn [tags_of filter]; [reflexivity|].
  destruct (is_link_b t); reflexivity.
Qed.

Lemma course_for_each (h : CourseHead) (nodes : list PageElement) :
  forall secs secs',
    Py.for_each (PittCourse_parse_child h) nodes secs = Ok secs' ->
    exists new,
      secs' = secs ++ new
      /\ map url new = hrefs (link_tags nodes)
      /\ List.length new = List.length (link_tags nodes)
      /\ Forall (fun sec =>
                   s_parent_subject sec = c_parent_subject h
                   /\ s_parent_course sec = Some h
                   /\ _extra sec = None
                   /\ class_fields sec <> None) new.
Proof.
  induction nodes as [|child nodes IH]; intros secs secs' E.
  - simpl in E. inversion E; subst. exists []. rewrite app_nil_r.
    repeat split; constructor.
  - cbn [Py.for_each] in E. inv_bind E. rename a into secs1.
    destruct (IH _ _ E) as (new & -> & Hurl & Hlen & Hall).
    rewrite link_tags_cons.
    destruct (course_child_cases _ _ _ _ E0)
      as [[-> ->] | (t & u & sec & -> & -> & Hu & Hsec & ->)].
    + exists new. auto.
    + destruct (PittSection_init_refs _ _ _ _ _ _ _ Hsec)
        as (Hurl1 & He & Hp & Hc & _ & Hf).
      exists (sec :: new). rewrite <- app_assoc.
      cbn [app map List.length hrefs flat_map].
      rewrite Hu. cbn [app]. fold (hrefs (link_tags nodes)).
      repeat split; auto.
      * now rewrite Hurl1, Hurl.
      * constructor; [|exact Hall]. repeat split; auto.
        apply Hf. discriminate.
Qed.

(** X10. When the course-level parse returns, the course keeps its head
    and the sections it had, and has received one new section per link
    node of the document, in document order, each with the node's [href]
    as URL, referring to the course, with class fields set and an empty
    extra-details cache; description nodes add nothing. *)
Theorem course_parse_appends (self c' : PittCourse) (resp : string)
    (classes : list PageElement) :
  primary_head_parent_contents resp = Ok classes ->
  PittCourse_parse_webpage self resp = Ok c' ->
  head c' = head self
  /\ exists new,
      sections c' = sections self ++ new
      /\ map url new = hrefs (link_tags classes)
      /\ List.length new = List.length (link_tags classes)
      /\ Forall (fun sec =>
                   s_parent_subject sec = c_parent_subject (head self)
                   /\ s_parent_course sec = Some (head self)
                   /\ _extra sec = None
                   /\ class_fields sec <> None) new.
Proof.
  intros Hdoc H. unfold PittCourse_parse_webpage in H. rewrite Hdoc in H.
  cbn [bind] in H. inv_bind H. inversion H; subst; clear H.
  cbn [head sections]. split; [reflexivity|].
  exact (course_for_each _ _ _ _ E).
Qed.

(** *** PittSection.parse_webpage *)

Lemma last_tag_some (t : Tag) (ts : list Tag) : exists l, last_tag (t :: ts) = Some l.
Proof.
  revert t. induction ts as [|t2 ts IH]; intro t; [now exists t|].
  destruct (IH t2) as [l Hl]. exists l. exact Hl.
Qed.

Lemma last_tag_app (ts : list Tag) (t : Tag) (ts2 : list Tag) :
  last_tag (ts ++ t :: ts2) = last_tag (t :: ts2).
Proof.
  induction ts as [|x ts IH]; [reflexivity|].
  rewrite <- IH. unfold last_tag. cbn [app map last].
  destruct (ts ++ t :: ts2) eqn:E; [now destruct ts|reflexivity].
Qed.

Lemma section_child_cases (self self' : PittSection) (child : PageElement) :
  PittSection_parse_child self child = Ok self' ->
  s_parent_subject self' = s_parent_subject self
  /\ s_parent_course self' = s_parent_course self
  /\ s_term self' = s_term self /\ _extra self' = _extra self
  /\ ((link_tags [child] = [] /\ url self' = url self
       /\ class_fields self' = class_fields self)
      \/ exists t f,
           link_tags [child] = [t]
           /\ Py.getitem (attrs t) "href" = Ok (url self')
           /\ class_fields self' = Some f
           /\ class_data_fields (class_data_of t) = Ok f).
Proof.
  unfold PittSection_parse_child, link_tags, is_link_b. rewrite not_blank_always.
  destruct child as [s|t]; cbn [tags_of filter].
  - intro H. inversion H; subst. repeat split; auto.
  - destruct (Py.contains (attrs t) "class"); cbn [negb].
    + destruct (negb (String.eqb (text t) "")).
      * intro H. inv_bind H. inv_bind H. destruct a0 as [sub num].
        inversion H; subst. cbn. repeat split; auto.
      * intro H. inversion H; subst. repeat split; auto.
    + intro H. inv_bind H. inv_bind H. inversion H; subst. cbn.
      repeat split; auto. right. exists t, a0. auto.
Qed.

Lemma section_for_each_kept (nodes : list PageElement) :
  forall self self',
    Py.for_each PittSection_parse_child nodes self = Ok self' ->
    s_parent_subject self' = s_parent_subject self
    /\ s_parent_course self' = s_parent_course self
    /\ s_term self' = s_term self /\ _extra self' = _extra self.
Proof.
  induction nodes as [|child nodes IH]; intros self self' H.
  - simpl in H. inversion H; subst. auto.
  - cbn [Py.for_each] in H. inv_bind H.
    destruct (IH _ _ H) as (Hp & Hc & Ht & He).
    destruct (section_child_cases _ _ _ E) as (Hp1 & Hc1 & Ht1 & He1 & _).
    repeat split; congruence.
Qed.

(** X11. When the section-level parse returns, the section's URL and
    class fields are those of the last link node of the document (its
    [href] and the fields read from its text), or are unchanged when the
    document has no link node; its back-references, its own term and its
    extra-details cache are never changed. *)
Theorem section_parse_last_link (self self' : PittSection) (resp : string)
    (classes : list PageElement) :
  primary_head_parent_contents resp = Ok classes ->
  PittSection_parse_webpage self resp = Ok self' ->
  s_parent_subject self' = s_parent_subject self
  /\ s_parent_course self' = s_parent_course self
  /\ s_term self' = s_term self /\ _extra self' = _extra self
  /\ match last_tag (link_tags classes) with
     | None => url self' = url self /\ class_fields self' = class_fields self
     | Some l =>
         Py.getitem (attrs l) "href" = Ok (url self')
         /\ exists f, class_fields self' = Some f
                      /\ class_data_fields (class_data_of l) = Ok f
     end.
Proof.
  intros Hdoc H. unfold PittSection_parse_webpage in H. rewrite Hdoc in H.
  cbn [bind] in H. clear Hdoc. revert self H.
  induction classes as [|child nodes IH]; intros self H.
  - simpl in H. inversion H; subst. cbn. repeat split.
  - cbn [Py.for_each] in H. inv_bind H. rename a into self1.
    destruct (IH _ H) as (Hp & Hc & Ht & He & Hlast).
    destruct (section_child_cases _ _ _ E) as (Hp1 & Hc1 & Ht1 & He1 & Hstep).
    split; [congruence|]. split; [congruence|].
    split; [congruence|]. split; [congruence|].
    rewrite link_tags_cons.
    destruct (link_tags nodes) as [|t2 ts] eqn:Hl.
    + rewrite app_nil_r. cbn in Hlast. destruct Hlast as [Hu Hf].
      destruct Hstep as [(-> & Hu1 & Hf1) | (t & f & -> & Hh & Hf1 & Hcd)].
      * cbn. split; congruence.
      * cbn. rewrite Hu. split; [exact Hh|]. exists f. split; congruence.
    + destruct (last_tag_some t2 ts) as [l Hlt].
      rewrite last_tag_app, Hlt. rewrite Hlt in Hlast. exact Hlast.
Qed.

(** *** The extra-details cache, continued *)

Lemma fetched_extra_keys (t : string) (data : list PageElement) (extra : ExtraMap) :
  fetched_extra t = Ok (data, extra) ->
  map fst extra = ["units"; "description"; "preq"].
Proof.
  unfold fetched_extra. intro H.
  repeat (let a := fresh "a" in
          let E := fresh "E" in
          apply bind_Ok_inv in H; destruct H as (a & E & H)).
  inversion H; subst. reflexivity.
Qed.

Lemma with_class_attributes_keys (data : list PageElement) (extra extra' : ExtraMap) :
  with_class_attributes data extra = Ok extra' ->
  extra' = extra \/ exists v, extra' = extra ++ [("class_attributes", v)].
Proof.
  unfold with_class_attributes. intro H. inv_bind H. inv_bind H.
  destruct (Py.str_contains "Class Attributes" a0).
  - inv_bind H. inversion H; subst. right. eauto.
  - inversion H; subst. now left.
Qed.

(** X12. A read of [extra_details] on a section whose cache is empty
    issues exactly one GET, to the section's URL, whether it returns or
    raises. Afterwards the cache is either still empty (the read raised
    and the section is unchanged), or holds a mapping whose keys are
    [units], [description], [preq] and possibly [class_attributes]; that
    mapping is the one returned, or, when the read raised after the
    assignment, the three-key mapping, which every later read returns
    without a request. *)
Theorem extra_details_uncached (self self1 : PittSection) (w w1 : World)
    (r : result ExtraMap) :
  _extra self = None ->
  extra_details self w = (r, self1, w1) ->
  requests w1 = requests w ++ [url self]
  /\ match _extra self1 with
     | None => self1 = self /\ exists e, r = Raise e
     | Some m =>
         self1 = set_extra self m
         /\ (r = Ok m
             /\ (map fst m = ["units"; "description"; "preq"]
                 \/ map fst m = ["units"; "description"; "preq";
                                 "class_attributes"])
             \/ (exists e, r = Raise e)
                /\ map fst m = ["units"; "description"; "preq"])
         /\ forall w2, extra_details self1 w2 = (Ok m, self1, w2)
     end.
Proof.
  intros Hnone H. unfold extra_details in H. rewrite Hnone in H.
  destruct (requests_get (url self) w) as [resp w2] eqn:Hg.
  apply requests_get_log in Hg.
  destruct (t <- resp ;; fetched_extra t) as [[data extra]|e] eqn:Hf.
  - assert (Hk : map fst extra = ["units"; "description"; "preq"]).
    { destruct resp as [t|e]; [|discriminate Hf]. cbn [bind] in Hf.
      eapply fetched_extra_keys; eauto. }
    destruct (with_class_attributes data extra) as [extra'|e] eqn:Hc;
      inversion H; subst; clear H; (split; [exact Hg|]); cbn [_extra set_extra].
    + split; [reflexivity|]. split.
      * left. split; [reflexivity|].
        destruct (with_class_attributes_keys _ _ _ Hc) as [-> | [v ->]];
          [now left | right]. rewrite map_app, Hk. reflexivity.
      * intro w3. now apply extra_details_hit.
    + split; [reflexivity|]. split.
      * right. split; [eauto | exact Hk].
      * intro w3. now apply extra_details_hit.
  - inversion H; subst; clear H. split; [exact Hg|].
    rewrite Hnone. split; [reflexivity | eauto].
Qed.

(** *** to_dict, continued *)

Lemma PittSection_to_dict_plain (s : PittSection) (w : World) :
  exists r, PittSection_to_dict false s w = (r, s, w).
Proof. unfold PittSection_to_dict. destruct (class_fields s); eauto. Qed.

Lemma sections_to_dict_plain (secs : list PittSection) (w : World) :
  exists r, sections_to_dict false secs w = (r, secs, w).
Proof.
  induction secs as [|s rest [r IH]]; [simpl; eauto|].
  cbn [sections_to_dict].
  destruct (PittSection_to_dict_plain s w) as [rs ->].
  destruct rs as [d|e]; [|eauto]. rewrite IH. eauto.
Qed.

Lemma items_to_dict_plain (items : list (string * PittCourse)) (w : World) :
  exists r, items_to_dict false items w = (r, items, w).
Proof.
  induction items as [|[k v] rest [r IH]]; [simpl; eauto|].
  cbn [items_to_dict]. unfold PittCourse_to_dict.
  destruct (sections_to_dict_plain (sections v) w) as [rs ->].
  destruct v as [h secs]. cbn [head sections].
  destruct rs as [d|e]; [|eauto]. rewrite IH. eauto.
Qed.

(** X13. [to_dict] without extra details never touches the network or
    the caches: whether it returns or raises, the world (hence the list
    of requests) and the subject are left as they were. *)
Theorem to_dict_plain_no_request (self : PittSubject) (w : World) :
  exists r, PittSubject_to_dict false self w = (r, self, w).
Proof.
  unfold PittSubject_to_dict.
  destruct (items_to_dict_plain (_courses self) w) as [r ->].
  exists r. destruct self; reflexivity.
Qed.

Lemma PittSection_to_dict_requests (s s' : PittSection) (w w' : World) d :
  PittSection_to_dict true s w = (Ok d, s', w') ->
  requests w' = requests w ++ pending [s] /\ uncached s' = false.
Proof.
  unfold PittSection_to_dict. destruct (class_fields s); [|discriminate].
  destruct (extra_details s w) as [[r s1] w1] eqn:Hx.
  destruct r as [m|e]; cbn [bind]; [|discriminate].
  intro H. injection H as <- <- <-.
  unfold pending, uncached. cbn [filter].
  destruct (extra_details_Ok _ _ _ _ _ Hx)
    as [(He & -> & ->) | (He & -> & Hlog)]; rewrite He.
  - cbn. now rewrite app_nil_r.
  - cbn. auto.
Qed.

Lemma pending_cons (s : PittSection) (rest : list PittSection) :
  pending (s :: rest) = pending [s] ++ pending rest.
Proof. unfold pending. cbn [filter]. destruct (uncached s); reflexivity. Qed.

Lemma sections_to_dict_requests (secs : list PittSection) :
  forall secs' w w' ds,
    sections_to_dict true secs w = (Ok ds, secs', w') ->
    requests w' = requests w ++ pending secs
    /\ pending secs' = []
    /\ List.length ds = List.length secs.
Proof.
  induction secs as [|s rest IH]; intros secs' w w' ds H.
  - simpl in H. inversion H; subst. cbn. now rewrite app_nil_r.
  - cbn [sections_to_dict] in H.
    destruct (PittSection_to_dict true s w) as [[r s1] w1] eqn:Hs.
    destruct r as [d|x]; [|discriminate].
    destruct (sections_to_dict true rest w1) as [[rs rest1] w2] eqn:Hr.
    destruct rs as [ds0|x]; cbn [bind] in H; [|discriminate].
    inversion H; subst; clear H.
    destruct (PittSection_to_dict_requests _ _ _ _ _ Hs) as [Hw Hc].
    destruct (IH _ _ _ _ Hr) as (Hw2 & Hp & Hlen).
    rewrite (pending_cons s rest), (pending_cons s1 rest1).
    rewrite Hw2, Hw, Hp, app_assoc. repeat split.
    + unfold pending. cbn [filter]. now rewrite Hc.
    + cbn. now rewrite Hlen.
Qed.

Lemma items_to_dict_requests (items : list (string * PittCourse)) :
  forall items' w w' d,
    items_to_dict true items w = (Ok d, items', w') ->
    requests w' = requests w ++ pending_items items
    /\ pending_items items' = []
    /\ map (fun kd => List.length (snd kd)) d
       = map (fun kv => List.length (sections (snd kv))) items.
Proof.
  induction items as [|[k v] rest IH]; intros items' w w' d H.
  - simpl in H. inversion H; subst. cbn. now rewrite app_nil_r.
  - cbn [items_to_dict] in H. unfold PittCourse_to_dict in H.
    destruct (sections_to_dict true (sections v) w) as [[r secs1] w1] eqn:Hv.
    destruct r as [dv|x]; [|discriminate].
    destruct (items_to_dict true rest w1) as [[rs rest1] w2] eqn:Hr.
    destruct rs as [ds0|x]; cbn [bind] in H; [|discriminate].
    inversion H; subst; clear H.
    destruct (sections_to_dict_requests _ _ _ _ _ Hv) as (Hw & Hp & Hlen).
    destruct (IH _ _ _ _ Hr) as (Hw2 & Hp2 & Hlen2).
    unfold pending_items in *. cbn [flat_map map fst snd sections].
    rewrite Hw2, Hw, Hp, Hp2, app_assoc, Hlen, Hlen2. auto.
Qed.

(** X14. When [to_dict] with extra details returns, it has issued one GET
    per section whose cache was empty, to that section's URL, in the
    order of the courses and of their sections, and nothing else; every
    cache is then filled, and each course's list has one dict per
    section. *)
Theorem to_dict_extra_requests (self self' : PittSubject) (w w' : World)
    (d : list (string * list SectionDict)) :
  PittSubject_to_dict true self w = (Ok d, self', w') ->
  requests w' = requests w ++ pending_items (_courses self)
  /\ pending_items (_courses self') = []
  /\ map (fun kd => List.length (snd kd)) d = section_counts self.
Proof.
  unfold PittSubject_to_dict.
  destruct (items_to_dict true (_courses self) w) as [[r items] w1] eqn:Hi.
  intro H. inversion H; subst; clear H. cbn [_courses].
  exact (items_to_dict_requests _ _ _ _ _ Hi).
Qed.

End Theory.

Section QueryTheory.

Context {env : Env} {ses : Session}.

Local Abbreviation PittSection := (PittSection datetime Tag).
Local Abbreviation PittCourse := (PittCourse datetime Tag).
Local Abbreviation PittSubject := (PittSubject datetime Tag).
Local Abbreviation Net := (Net Server).

(** ** The query functions *)

Ltac inv_bind H :=
  let a := fresh "a" in
  let E := fresh "E" in
  apply bind_Ok_inv in H; destruct H as (a & E & H).

Lemma bindN_inv {A B : Type} (c : NetM A) (k : A -> NetM B) (n n' : Net)
    (r : result B) :
  bindN c k n = (r, n') ->
  (exists e, c n = (Raise e, n') /\ r = Raise e)
  \/ (exists a n1, c n = (Ok a, n1) /\ k a n1 = (r, n')).
Proof.
  unfold bindN. destruct (c n) as [[a|e] n1]; intro H.
  - right. eauto.
  - inversion H; subst. left. eauto.
Qed.

Lemma pure_inv {A : Type} (x r : result A) (n n' : Net) :
  pure x n = (r, n') -> x = r /\ n' = n.
Proof. unfold pure. intro H. inversion H. auto. Qed.

Lemma new_session_get_log (u : string) (n n1 : Net) r :
  new_session_get u n = (r, n1) -> sent n1 = sent n ++ [GET u].
Proof.
  unfold new_session_get. destruct (session_get u (portal n)) as [r0 sv].
  intro H. inversion H; subst. reflexivity.
Qed.

Lemma post_log session (u : string) payload (n n1 : Net) r :
  post session u payload n = (r, n1) -> sent n1 = sent n ++ [POST u payload].
Proof.
  unfold post. destruct (session_post u payload session (portal n)) as [r0 sv].
  intro H. inversion H; subst. reflexivity.
Qed.

Lemma get_payload_run (t s c : string) (sec : pyval) (n n1 : Net) r :
  _get_payload t s c sec n = (r, n1) ->
  sent n1 = sent n ++ [GET CLASS_SEARCH_URL]
  /\ forall session payload,
       r = Ok (session, payload) ->
       exists token, Py.getitem session "CSRFCookie" = Ok token
                     /\ payload = search_payload token t s c sec.
Proof.
  unfold _get_payload. intro H.
  destruct (bindN_inv _ _ _ _ _ H) as [(e & Hg & ->) | (jar & n2 & Hg & H2)].
  - split; [exact (new_session_get_log _ _ _ _ Hg) | discriminate].
  - assert (Hlog := new_session_get_log _ _ _ _ Hg).
    destruct (bindN_inv _ _ _ _ _ H2) as [(e & Ht & ->) | (tok & n3 & Ht & H3)].
    + apply pure_inv in Ht. destruct Ht as [_ ->]. split; [exact Hlog | discriminate].
    + apply pure_inv in Ht. destruct Ht as [Htok ->].
      apply pure_inv in H3. destruct H3 as [<- ->].
      split; [exact Hlog|]. intros session payload Heq. inversion Heq; subst.
      exists tok. auto.
Qed.

(** The part the three functions share after validation: payload, POST,
    and what is made of the response. *)
Lemma search_run {A : Type} (t s c : string) (sec : pyval)
    (K : string -> NetM A) (n n' : Net) (r : result A) :
  bindN (_get_payload t s c sec)
    (fun x => match x with
              | (session, payload) =>
                  bindN (post session CLASS_SEARCH_API_URL payload) K
              end) n = (r, n') ->
  (sent n' = sent n ++ [GET CLASS_SEARCH_URL] /\ exists e, r = Raise e)
  \/ exists token n2,
       sent n2 = sent n ++ search_requests token t s c sec
       /\ ((n' = n2 /\ exists e, r = Raise e)
           \/ exists text, K text n2 = (r, n')).
Proof.
  intro H.
  destruct (bindN_inv _ _ _ _ _ H)
    as [(e & Hg & ->) | ([session payload] & n1 & Hg & H1)].
  - left. destruct (get_payload_run _ _ _ _ _ _ _ Hg) as [Hlog _]. eauto.
  - destruct (get_payload_run _ _ _ _ _ _ _ Hg) as [Hlog Hpay].
    destruct (Hpay _ _ eq_refl) as (token & _ & ->).
    right. exists token.
    destruct (bindN_inv _ _ _ _ _ H1) as [(e & Hp & ->) | (text & n2 & Hp & H2)].
    + exists n'. rewrite (post_log _ _ _ _ _ _ Hp), Hlog, <- app_assoc.
      split; [reflexivity|]. left. eauto.
    + exists n2. rewrite (post_log _ _ _ _ _ _ Hp), Hlog, <- app_assoc.
      split; [reflexivity|]. right. eauto.
Qed.

Lemma validate_subject_Ok (subject s : string) :
  _validate_subject subject = Ok s -> Py.upper subject = Some s /\ In s SUBJECTS.
Proof.
  unfold _validate_subject. destruct (Py.upper subject) as [u|]; [|discriminate].
  destruct (Py.str_in u SUBJECTS) eqn:E; [|discriminate].
  intro H. inversion H; subst. split; [reflexivity | now apply str_in_In].
Qed.

(** A search that returned: the jar of the priming GET holds the token the
    payload carries, and the POST was sent with that jar to the server as
    the GET left it. *)
Lemma search_returned {A : Type} (t s c : string) (sec : pyval)
    (K : string -> NetM A) (n n' : Net) (a : A) :
  bindN (_get_payload t s c sec)
    (fun x => match x with
              | (session, payload) =>
                  bindN (post session CLASS_SEARCH_API_URL payload) K
              end) n = (Ok a, n') ->
  exists jar sv token text n2,
    session_get CLASS_SEARCH_URL (portal n) = (Ok jar, sv)
    /\ Py.getitem jar "CSRFCookie" = Ok token
    /\ session_post CLASS_SEARCH_API_URL (search_payload token t s c sec) jar sv
       = (Ok text, portal n2)
    /\ sent n2 = sent n ++ search_requests token t s c sec
    /\ K text n2 = (Ok a, n').
Proof.
  intro H.
  destruct (bindN_inv _ _ _ _ _ H)
    as [(e & _ & Hr) | ([session payload] & n1 & Hg & H1)]; [discriminate Hr|].
  unfold _get_payload in Hg.
  destruct (bindN_inv _ _ _ _ _ Hg) as [(e & _ & Hr) | (jar & n0 & Hs & Hg1)];
    [discriminate Hr|].
  destruct (bindN_inv _ _ _ _ _ Hg1) as [(e & _ & Hr) | (token & n3 & Ht & Hg2)];
    [discriminate Hr|].
  apply pure_inv in Ht. destruct Ht as [Htok ->].
  apply pure_inv in Hg2. destruct Hg2 as [Hpay ->].
  inversion Hpay; subst session payload; clear Hpay.
  destruct (bindN_inv _ _ _ _ _ H1) as [(e & _ & Hr) | (text & n2 & Hp & H2)];
    [discriminate Hr|].
  unfold new_session_get in Hs.
  destruct (session_get CLASS_SEARCH_URL (portal n)) as [rj sv] eqn:Hget.
  inversion Hs; subst rj n0; clear Hs.
  unfold post in Hp. cbn [portal sent] in Hp.
  destruct (session_post CLASS_SEARCH_API_URL
              (search_payload token t s c sec) jar sv) as [rp sv2] eqn:Hpost.
  inversion Hp; subst rp n2; clear Hp.
  exists jar, sv, token, text, (mkNet ((sent n ++ [GET CLASS_SEARCH_URL])
    ++ [POST CLASS_SEARCH_API_URL (search_payload token t s c sec)]) sv2).
  cbn [portal sent]. split; [reflexivity|]. split; [exact Htok|].
  split; [first [exact Hpost | reflexivity]|].
  split; [now rewrite <- app_assoc | exact H2].
Qed.

(** X15. No query function sends a request unless every validator has
    accepted its input, and none sends more than two: a run adds to the
    log nothing, or the priming GET alone, or the GET followed by the
    POST of the search payload. *)
Theorem queries_validate_first (term : pyval) (subject : string)
    (course section_number : pyval) (n : Net) :
  (forall r n', get_term_courses term subject n = (r, n') ->
     n' = n
     \/ exists t s, _validate_term term = Ok t /\ _validate_subject subject = Ok s
          /\ (sent n' = sent n ++ [GET CLASS_SEARCH_URL]
              \/ exists token,
                   sent n' = sent n ++ search_requests token t s "" (PyStr "")))
  /\ (forall r n', get_course_sections term subject course n = (r, n') ->
        n' = n
        \/ exists t s c, _validate_term term = Ok t
             /\ _validate_subject subject = Ok s /\ _validate_course course = Ok c
             /\ (sent n' = sent n ++ [GET CLASS_SEARCH_URL]
                 \/ exists token,
                      sent n' = sent n ++ search_requests token t s c (PyStr "")))
  /\ (forall r n', get_section_details term section_number n = (r, n') ->
        n' = n
        \/ exists t sec, _validate_term term = Ok t
             /\ (sent n' = sent n ++ [GET CLASS_SEARCH_URL]
                 \/ exists token, sent n' = sent n ++ search_requests token t "" "" sec)).
Proof.
  split; [|split]; intros r n' H.
  - unfold get_term_courses in H.
    destruct (bindN_inv _ _ _ _ _ H) as [(e & Hv & _) | (t & n1 & Hv & H1)];
      apply pure_inv in Hv; destruct Hv as [Ht ->]; [now left|].
    destruct (bindN_inv _ _ _ _ _ H1) as [(e & Hv & _) | (s & n1 & Hv & H2)];
      apply pure_inv in Hv; destruct Hv as [Hs ->]; [now left|].
    right. exists t, s. split; [auto|]. split; [auto|].
    destruct (search_run _ _ _ _ _ _ _ _ H2)
      as [[Hlog _] | (token & n2 & Hlog & [[-> _] | [text HK]])].
    + now left.
    + right. eauto.
    + apply pure_inv in HK. destruct HK as [_ ->]. right. eauto.
  - unfold get_course_sections in H.
    destruct (bindN_inv _ _ _ _ _ H) as [(e & Hv & _) | (t & n1 & Hv & H1)];
      apply pure_inv in Hv; destruct Hv as [Ht ->]; [now left|].
    destruct (bindN_inv _ _ _ _ _ H1) as [(e & Hv & _) | (s & n1 & Hv & H2)];
      apply pure_inv in Hv; destruct Hv as [Hs ->]; [now left|].
    destruct (bindN_inv _ _ _ _ _ H2) as [(e & Hv & _) | (c & n1 & Hv & H3)];
      apply pure_inv in Hv; destruct Hv as [Hc ->]; [now left|].
    right. exists t, s, c. repeat (split; [auto|]).
    destruct (search_run _ _ _ _ _ _ _ _ H3)
      as [[Hlog _] | (token & n2 & Hlog & [[-> _] | [text HK]])].
    + now left.
    + right. eauto.
    + apply pure_inv in HK. destruct HK as [_ ->]. right. eauto.
  - unfold get_section_details in H.
    destruct (bindN_inv _ _ _ _ _ H) as [(e & Hv & _) | (t & n1 & Hv & H1)];
      apply pure_inv in Hv; destruct Hv as [Ht ->]; [now left|].
    right. exists t. eexists. split; [auto|].
    destruct (search_run _ _ _ _ _ _ _ _ H1)
      as [[Hlog _] | (token & n2 & Hlog & [[-> _] | [text HK]])].
    + now left.
    + right. eauto.
    + right. exists token.
      destruct (bindN_inv _ _ _ _ _ HK) as [(e & Hv & _) | (c & n3 & Hv & H3)];
        apply pure_inv in Hv; destruct Hv as [_ ->]; [exact Hlog|].
      apply pure_inv in H3. destruct H3 as [_ ->]. exact Hlog.
Qed.

(** X16. When [get_term_courses] returns a subject, the priming GET has
    returned a cookie jar that holds [CSRFCookie], and the POST was sent
    with that jar and with the payload that carries that cookie's value
    as CSRF token, the validated term, the upper-cased subject and empty
    course and section filters; these are the only two requests. The
    subject returned is the parse of the POST's response into a fresh
    subject: it carries the validated term and the upper-cased subject,
    which is a listed code, and its course numbers are pairwise
    distinct. *)
Theorem get_term_courses_result (term0 : pyval) (subject0 : string) (n n' : Net)
    (subj : PittSubject) :
  get_term_courses term0 subject0 n = (Ok subj, n') ->
  exists t s jar sv token text,
    _validate_term term0 = Ok t
    /\ Py.upper subject0 = Some s /\ In s SUBJECTS
    /\ session_get CLASS_SEARCH_URL (portal n) = (Ok jar, sv)
    /\ Py.getitem jar "CSRFCookie" = Ok token
    /\ session_post CLASS_SEARCH_API_URL
         (search_payload token t s "" (PyStr "")) jar sv = (Ok text, portal n')
    /\ sent n' = sent n ++ search_requests token t s "" (PyStr "")
    /\ PittSubject_parse_webpage (PittSubject_init s t) text = Ok subj
    /\ term subj = t /\ subject subj = s
    /\ NoDup (courses subj).
Proof.
  intro H. unfold get_term_courses in H.
  destruct (bindN_inv _ _ _ _ _ H) as [(e & _ & Hr) | (t & n1 & Hv & H1)];
    [discriminate Hr|].
  apply pure_inv in Hv. destruct Hv as [Ht ->].
  destruct (bindN_inv _ _ _ _ _ H1) as [(e & _ & Hr) | (s & n1 & Hv & H2)];
    [discriminate Hr|].
  apply pure_inv in Hv. destruct Hv as [Hs ->].
  destruct (validate_subject_Ok _ _ Hs) as [Hup Hin].
  destruct (search_returned _ _ _ _ _ _ _ _ H2)
    as (jar & sv & token & text & n2 & Hget & Htok & Hpost & Hlog & HK).
  apply pure_inv in HK. destruct HK as [Hp ->].
  exists t, s, jar, sv, token, text.
  repeat (split; [assumption|]).
  assert (Hp' := Hp). unfold PittSubject_parse_webpage in Hp'.
  inv_bind Hp'. inv_bind Hp'. destruct a0 as [cs cur].
  inversion Hp'; subst; clear Hp'.
  cbn [term subject courses _courses PittSubject_init].
  split; [reflexivity|]. split; [reflexivity|].
  apply (for_each_keys _ _ _ _ _ _ E0). constructor.
Qed.

(** X17. When [get_course_sections] returns a course, the course stands
    alone (no parent subject) and carries the validated term, the
    upper-cased subject and the four-character padded course number;
    every section resolves its term, subject and course number to these
    and has an empty extra-details cache; and exactly two requests were
    sent, the POST naming term, subject and padded course number. *)
Theorem get_course_sections_result (term : pyval) (subject0 : string)
    (course : pyval) (n n' : Net) (c : PittCourse) :
  get_course_sections term subject0 course n = (Ok c, n') ->
  exists t s k token,
    _validate_term term = Ok t /\ _validate_course course = Ok k
    /\ Py.upper subject0 = Some s /\ In s SUBJECTS
    /\ head c = mkCourseHead None (Some t) (Some s) k
    /\ (forall sec, In sec (sections c) ->
          PittSection_term sec = Some t
          /\ PittSection_subject sec = Some s
          /\ PittSection_course_number sec = Some k
          /\ _extra sec = None)
    /\ sent n' = sent n ++ search_requests token t s k (PyStr "").
Proof.
  intro H. unfold get_course_sections in H.
  destruct (bindN_inv _ _ _ _ _ H) as [(e & _ & Hr) | (t & n1 & Hv & H1)];
    [discriminate Hr|].
  apply pure_inv in Hv. destruct Hv as [Ht ->].
  destruct (bindN_inv _ _ _ _ _ H1) as [(e & _ & Hr) | (s & n1 & Hv & H2)];
    [discriminate Hr|].
  apply pure_inv in Hv. destruct Hv as [Hs ->].
  destruct (validate_subject_Ok _ _ Hs) as [Hup Hin].
  destruct (bindN_inv _ _ _ _ _ H2) as [(e & _ & Hr) | (k & n1 & Hv & H3)];
    [discriminate Hr|].
  apply pure_inv in Hv. destruct Hv as [Hk ->].
  destruct (search_run _ _ _ _ _ _ _ _ H3)
    as [[_ [e Hr]] | (token & n2 & Hlog & [[_ [e Hr]] | [text HK]])];
    try discriminate Hr.
  apply pure_inv in HK. destruct HK as [Hp ->].
  exists t, s, k, token.
  split; [auto|]. split; [auto|]. split; [auto|]. split; [auto|].
  unfold PittCourse_parse_webpage in Hp.
  inv_bind Hp. inv_bind Hp. inversion Hp; subst; clear Hp.
  cbn [head sections PittCourse_init] in *.
  split; [reflexivity|]. split; [|exact Hlog].
  destruct (course_for_each _ _ _ _ E0) as (new & -> & _ & _ & Hall).
  cbn [app]. intros sec Hsec. rewrite Forall_forall in Hall.
  destruct (Hall _ Hsec) as (Hp & Hc & He & _).
  unfold PittSection_term, PittSection_subject, PittSection_course_number.
  rewrite Hp, Hc. cbn. auto.
Qed.

(** X18. When [get_section_details] returns a section, the section stands
    alone (no parent subject, no parent course), resolves its term to the
    validated term, and has an empty extra-details cache; exactly two
    requests were sent, the POST naming the term and, as the only filter,
    the section number in its string form. *)
Theorem get_section_details_result (term section_number : pyval) (n n' : Net)
    (sec : PittSection) :
  get_section_details term section_number n = (Ok sec, n') ->
  exists t token,
    _validate_term term = Ok t
    /\ s_parent_subject sec = None /\ s_parent_course sec = None
    /\ PittSection_term sec = Some t
    /\ _extra sec = None
    /\ sent n' = sent n
                 ++ search_requests token t "" ""
                      (match section_number with
                       | PyInt z => PyStr (Py.str_of_int z)
                       | v => v
                       end).
Proof.
  intro H. unfold get_section_details in H.
  destruct (bindN_inv _ _ _ _ _ H) as [(e & _ & Hr) | (t & n1 & Hv & H1)];
    [discriminate Hr|].
  apply pure_inv in Hv. destruct Hv as [Ht ->].
  destruct (search_run _ _ _ _ _ _ _ _ H1)
    as [[_ [e Hr]] | (token & n2 & Hlog & [[_ [e Hr]] | [text HK]])];
    try discriminate Hr.
  destruct (bindN_inv _ _ _ _ _ HK) as [(e & _ & Hr) | (c & n3 & Hv & H3)];
    [discriminate Hr|].
  apply pure_inv in Hv. destruct Hv as [Hc ->].
  apply pure_inv in H3. destruct H3 as [Hp ->].
  exists t, token. split; [auto|].
  unfold PittSection_parse_webpage in Hp. inv_bind Hp.
  destruct (section_for_each_kept _ _ _ Hp) as (Hps & Hpc & Hterm & He).
  destruct (PittSection_init_refs _ _ _ _ _ _ _ Hc)
    as (_ & He0 & Hp0 & Hc0 & Ht0 & _).
  unfold PittSection_term.
  rewrite Hps, Hpc, Hterm, He, Hp0, Hc0, Ht0, He0. auto.
Qed.

End QueryTheory.

(** ** The theorems on the sample environment *)

Section Fixtures.

#[local] Existing Instance Sample.env.

Lemma validate_course_pads_witness :
  _validate_course (PyStr "5") = Ok "0005"
  /\ _validate_course (PyInt 101) = Ok "0101"
  /\ _validate_course (PyStr "1020") = Ok "1020"
  /\ _validate_course (PyInt 12345) = Raise ValueError.
Proof.
  split; [|split; [|split]].
  - apply (validate_course_pads (PyStr "5") "5" eq_refl). simpl. lia.
  - apply (validate_course_pads (PyInt 101) "101" eq_refl). simpl. lia.
  - apply (validate_course_pads (PyStr "1020") "1020" eq_refl). simpl. lia.
  - apply (validate_course_pads (PyInt 12345) "12345" eq_refl). simpl. lia.
Defined.

Lemma init_TBA_witness :
  exists sec f,
    PittSection_init None None "/s/103" (Some (Sample.link_lines "TBA")) None None
      = Ok sec
    /\ class_fields sec = Some f /\ days f = None /\ times f = None.
Proof.
  destruct (PittSection_init None None "/s/103" (Some (Sample.link_lines "TBA"))
              None None) as [sec|e] eqn:Hinit; [|discriminate Hinit].
  destruct (init_TBA None None "/s/103" (Sample.link_lines "TBA") None None sec
              "Days/Times: TBA" Hinit eq_refl eq_refl) as (f & Hf & Hd & Ht).
  exists sec, f. auto.
Defined.

(** C1, as stated, fails: the day-string ["MW"] is one chunk. *)
Lemma init_MW_one_chunk :
  PittSection_init None None "/s/101"
    (Some (Sample.link_lines "MW 2:00PM - 3:15PM")) None None
  = Ok Sample.mw_section
  /\ exists f,
      class_fields Sample.mw_section = Some f
      /\ days f = Some ["MW"]
      /\ days f <> Some ["M"; "W"].
Proof.
  split; [vm_compute; reflexivity|].
  eexists. split; [reflexivity|]. split; [reflexivity | discriminate].
Qed.

Lemma init_MW_witness :
  exists sec f,
    PittSection_init None None "/s/101"
      (Some (Sample.link_lines "MW 2:00PM - 3:15PM")) None None = Ok sec
    /\ class_fields sec = Some f
    /\ days f = Some ["MW"] /\ times f = Some ["2:00PM"; "3:15PM"].
Proof.
  destruct (PittSection_init None None "/s/101"
              (Some (Sample.link_lines "MW 2:00PM - 3:15PM")) None None)
    as [sec|e] eqn:Hinit; [|discriminate Hinit].
  destruct (init_MW None None "/s/101" (Sample.link_lines "MW 2:00PM - 3:15PM")
              None None sec "Days/Times: MW 2:00PM - 3:15PM" Hinit eq_refl eq_refl)
    as (f & Hf & Hd & Ht).
  exists sec, f. auto.
Defined.

Lemma days_are_chunks_witness :
  (exists sec f,
      PittSection_init None None "/s/105"
        (Some (Sample.link_lines "MoWeF 2:00PM - 3:15PM")) None None = Ok sec
      /\ class_fields sec = Some f /\ days f = Some ["Mo"; "We"])
  /\ (exists self' f,
        PittSection_parse_child Sample.lone_section
          (Sample.link "/s/105" (Sample.link_lines "MoWeF 2:00PM - 3:15PM"))
        = Ok self'
        /\ class_fields self' = Some f /\ days f = Some ["Mo"; "We"]).
Proof.
  assert (Hne : "MoWeF 2:00PM - 3:15PM" <> "TBA") by discriminate.
  destruct (days_are_chunks "Days/Times: MoWeF 2:00PM - 3:15PM"
              "MoWeF 2:00PM - 3:15PM" eq_refl Hne) as [Hinit Hparse].
  split.
  - destruct (PittSection_init None None "/s/105"
                (Some (Sample.link_lines "MoWeF 2:00PM - 3:15PM")) None None)
      as [sec|e] eqn:E; [|discriminate E].
    destruct (Hinit None None "/s/105" (Sample.link_lines "MoWeF 2:00PM - 3:15PM")
                None None sec E eq_refl)
      as (f & day_string & ds & Hf & Hds & Hd & Hl & Hall & _ & Hodd).
    exists sec, f. split; [reflexivity|]. split; [exact Hf|].
    rewrite Hd. f_equal.
    vm_compute in Hds. injection Hds as <-.
    destruct (Hodd eq_refl) as [c Hc].
    destruct ds as [|a [|b [|x ds]]]; try discriminate Hl.
    inversion Hall as [|? ? Ha Hall']; subst.
    inversion Hall' as [|? ? Hb _]; subst.
    destruct a as [|a0 [|a1 [|? ?]]]; try discriminate Ha.
    destruct b as [|b0 [|b1 [|? ?]]]; try discriminate Hb.
    simpl in Hc. now inversion Hc.
  - destruct (PittSection_parse_child Sample.lone_section
                (Sample.link "/s/105" (Sample.link_lines "MoWeF 2:00PM - 3:15PM")))
      as [self'|e] eqn:E; [|discriminate E].
    destruct (Hparse Sample.lone_section self'
                (Sample.link_tag "/s/105" (Sample.link_lines "MoWeF 2:00PM - 3:15PM"))
                eq_refl E eq_refl)
      as (f & day_string & ds & Hf & Hds & Hd & Hl & Hall & _ & Hodd).
    exists self', f. split; [reflexivity|]. split; [exact Hf|].
    rewrite Hd. f_equal.
    vm_compute in Hds. injection Hds as <-.
    destruct (Hodd eq_refl) as [c Hc].
    destruct ds as [|a [|b [|x ds]]]; try discriminate Hl.
    inversion Hall as [|? ? Ha Hall']; subst.
    inversion Hall' as [|? ? Hb _]; subst.
    destruct a as [|a0 [|a1 [|? ?]]]; try discriminate Ha.
    destruct b as [|b0 [|b1 [|? ?]]]; try discriminate Hb.
    simpl in Hc. now inversion Hc.
Defined.

(** C2, as stated, fails: the description node ["CS 5 - SEMINAR"] gives
    the key ["5"], one character long, and the lookup of ["5"], made
    under ["0005"], does not find it. *)
Lemma parse_key_unpadded :
  PittSubject_parse_webpage Sample.fresh "unpadded_course"
    = Ok Sample.unpadded_subject
  /\ courses Sample.unpadded_subject = ["5"]
  /\ ~ Forall (fun k => String.length k = 4) (courses Sample.unpadded_subject)
  /\ PittSubject_getitem Sample.unpadded_subject (PyStr "5") = Raise ValueError.
Proof.
  assert (E : courses Sample.unpadded_subject = ["5"]) by (vm_compute; reflexivity).
  split; [vm_compute; reflexivity|]. split; [exact E|]. split.
  - rewrite E. intro H. apply Forall_inv in H. discriminate H.
  - vm_compute. reflexivity.
Qed.

Lemma parse_keys_witness :
  PittSubject_parse_webpage Sample.fresh "two_courses"
    = Ok Sample.two_courses_subject
  /\ NoDup (courses Sample.two_courses_subject)
  /\ (exists c, PittSubject_getitem Sample.two_courses_subject (PyStr "401")
                = Ok (Some c)
                /\ In ("0401", c) (_courses Sample.two_courses_subject)).
Proof.
  assert (Hp : PittSubject_parse_webpage Sample.fresh "two_courses"
               = Ok Sample.two_courses_subject) by (vm_compute; reflexivity).
  destruct (parse_keys (env := Sample.env) Sample.fresh Sample.two_courses_subject "two_courses"
              Sample.two_courses (NoDup_nil _) eq_refl Hp) as (Hnd & _ & Hget & _).
  split; [exact Hp|]. split; [exact Hnd|].
  destruct (Hget "401" "0401" eq_refl) as [Hhit _].
  apply Hhit. simpl. auto.
Defined.

(** C3, as stated, fails: two description nodes that announce the same
    course open one course, which receives the three sections. *)
Lemma parse_same_course_twice :
  (exists d1 l1 l2 d2 l3,
      tags_of Sample.same_course_twice = [d1; l1; l2; d2; l3]
      /\ is_description d1 /\ is_link l1 /\ is_link l2
      /\ is_description d2 /\ is_link l3)
  /\ PittSubject_parse_webpage Sample.fresh "same_course_twice"
     = Ok Sample.same_course_subject
  /\ courses Sample.same_course_subject = ["0401"]
  /\ section_counts Sample.same_course_subject = [3].
Proof.
  split.
  - do 5 eexists. split; [reflexivity|].
    repeat split; try reflexivity; discriminate.
  - split; [|split]; vm_compute; reflexivity.
Qed.

Lemma parse_two_courses_witness :
  exists subj,
    PittSubject_parse_webpage Sample.fresh "two_courses" = Ok subj
    /\ courses subj = ["0401"; "0441"]
    /\ section_counts subj = [2; 1].
Proof.
  edestruct (parse_two_courses (env := Sample.env) "CS" "2191" "two_courses" Sample.two_courses
               (Sample.description_tag "CS 0401 - INTERMEDIATE PROGRAMMING")
               (Sample.link_tag "/s/101" (Sample.link_lines "MoWe 2:00PM - 3:15PM"))
               (Sample.link_tag "/s/102" (Sample.link_lines "TuTh 9:30AM - 10:45AM"))
               (Sample.description_tag "CS 0441 - DISCRETE STRUCTURES")
               (Sample.link_tag "/s/103" (Sample.link_lines "TBA"))
               "0401" "0441")
    as (subj & Hp & _ & Hc & Hn).
  - reflexivity.
  - reflexivity.
  - split; [reflexivity | discriminate].
  - reflexivity.
  - split; [reflexivity | discriminate].
  - reflexivity.
  - discriminate.
  - reflexivity.
  - vm_compute. reflexivity.
  - reflexivity.
  - vm_compute. reflexivity.
  - reflexivity.
  - vm_compute. reflexivity.
  - exists subj. auto.
Defined.


Lemma extra_details_cached_witness :
  extra_details Sample.lone_section Sample.world0
    = (Ok Sample.lone_extra, Sample.lone_section_cached, Sample.world_after_read)
  /\ extra_details Sample.lone_section_cached Sample.world_after_read
     = (Ok Sample.lone_extra, Sample.lone_section_cached, Sample.world_after_read)
  /\ requests Sample.world_after_read = ["/s/101"].
Proof.
  assert (H : extra_details Sample.lone_section Sample.world0
              = (Ok Sample.lone_extra, Sample.lone_section_cached,
                 Sample.world_after_read)) by (vm_compute; reflexivity).
  destruct (extra_details_cached Sample.lone_section Sample.lone_section_cached
              Sample.world0 Sample.world_after_read Sample.lone_extra H)
    as (H2 & _ & Hlog & _).
  split; [exact H|]. split; [exact H2|]. exact (Hlog eq_refl).
Defined.

#[local] Existing Instance Sample.session.

Lemma extract_label_value_witness :
  extract "Room: 5502 Sennott Square" = Ok "5502 Sennott Square"
  /\ extract "Note: see: below" = Ok "see"
  /\ extract "Room" = Raise IndexError.
Proof.
  destruct (extract_label_value "Room" "5502 Sennott Square" eq_refl)
    as (H1 & _ & H3).
  destruct (extract_label_value "Note" "see: below" eq_refl) as (_ & H2 & _).
  split; [exact (H1 eq_refl)|].
  split; [exact (H2 "see" "below" eq_refl eq_refl) | exact (H3 eq_refl)].
Defined.

Lemma class_data_fields_render_witness :
  render Sample.monday_lecture = Sample.link_lines "MoWe 2:00PM - 3:15PM"
  /\ class_data_fields (render Sample.monday_lecture)
     = Ok (mkClassFields "1010" "LEC" "12345" (Some ["Mo"; "We"])
             (Some ["2:00PM"; "3:15PM"]) "5502 Sennott Square" "J. Doe"
             (Sample.mkDate 8 27 2018) (Sample.mkDate 12 7 2018)).
Proof.
  split; [reflexivity|].
  apply (class_data_fields_render (env := Sample.env) Sample.monday_lecture
           (Sample.mkDate 8 27 2018) (Sample.mkDate 12 7 2018)).
  - repeat split; reflexivity.
  - reflexivity.
  - reflexivity.
Defined.

Lemma init_fields_shape_witness :
  PittSection_init None None "/s/101"
    (Some (Sample.link_lines "MW 2:00PM - 3:15PM")) None None
  = Ok Sample.mw_section
  /\ url Sample.mw_section = "/s/101"
  /\ _extra Sample.mw_section = None.
Proof.
  assert (H : PittSection_init None None "/s/101"
                (Some (Sample.link_lines "MW 2:00PM - 3:15PM")) None None
              = Ok Sample.mw_section) by (vm_compute; reflexivity).
  destruct (init_fields_shape None None "/s/101"
              (Sample.link_lines "MW 2:00PM - 3:15PM") None None
              Sample.mw_section H) as (_ & Hu & He & _).
  split; [exact H|]. split; [exact Hu | exact He].
Defined.

Lemma validate_term_accepts_witness :
  _validate_term (PyInt 2174) = Ok "2174"
  /\ _validate_term (PyStr "2174-fall") = Ok "2174-fall".
Proof.
  assert (Hc : is_term_code "2174").
  { exists "1"%char, "7"%char, "4"%char. repeat split; auto. }
  split.
  - apply (validate_term_accepts (PyInt 2174) "2174"). split; [reflexivity|].
    exists "2174", "". split; [reflexivity | exact Hc].
  - apply (validate_term_accepts (PyStr "2174-fall") "2174-fall").
    split; [reflexivity|].
    exists "2174", "-fall". split; [reflexivity | exact Hc].
Defined.

Lemma validate_subject_upper_witness :
  _validate_subject "cs" = Ok "CS"
  /\ _validate_subject "Cs" = _validate_subject "cs"
  /\ _validate_subject "CS" = Ok "CS"
  /\ _validate_subject ("ru" ++ String (ascii_of_nat 223) "") = Ok "RUSS"
  /\ _validate_subject "xyz" = Raise ValueError.
Proof.
  destruct (validate_subject_upper "cs") as (Hok & _ & Hcase & Hidem).
  assert (Hin : In "CS" SUBJECTS) by (apply str_in_In; vm_compute; reflexivity).
  assert (Hcs : _validate_subject "cs" = Ok "CS") by exact (Hok "CS" eq_refl Hin).
  split; [exact Hcs|]. split; [exact (Hcase "Cs" eq_refl)|].
  split; [exact (proj2 (proj2 (Hidem "CS" Hcs)))|]. split.
  - destruct (validate_subject_upper ("ru" ++ String (ascii_of_nat 223) ""))
      as (Hss & _).
    apply (Hss "RUSS" eq_refl). apply str_in_In. vm_compute. reflexivity.
  - destruct (validate_subject_upper "xyz") as (_ & Hno & _).
    apply Hno. intros u Hu Hin'. inversion Hu; subst u.
    apply str_in_In in Hin'. vm_compute in Hin'. discriminate Hin'.
Defined.

Lemma validate_subject_listed_witness : _validate_subject "MATH" = Ok "MATH".
Proof.
  apply validate_subject_listed. apply str_in_In. vm_compute. reflexivity.
Defined.

Lemma validate_course_result_witness :
  _validate_course (PyInt 5) = Ok "0005"
  /\ String.length "0005" = 4
  /\ _validate_course (PyStr "0005") = Ok "0005".
Proof.
  assert (H : _validate_course (PyInt 5) = Ok "0005") by reflexivity.
  destruct (validate_course_result (PyInt 5) "0005" H) as (Hlen & _ & Hidem).
  auto.
Defined.

Lemma parse_link_before_description_witness :
  PittSubject_parse_webpage Sample.fresh "one_section" = Raise AttributeError.
Proof.
  apply (parse_link_before_description (env := Sample.env) Sample.fresh
           "one_section" Sample.one_section []
           [Sample.description_tag "CS 0401 - INTERMEDIATE PROGRAMMING"]
           (Sample.link_tag "/s/105" (Sample.link_lines "MoWeF 2:00PM - 3:15PM"))).
  - reflexivity.
  - reflexivity.
  - constructor.
  - reflexivity.
Defined.

Lemma parse_back_references_witness :
  PittSubject_parse_webpage Sample.fresh "two_courses"
    = Ok Sample.two_courses_subject
  /\ forall k c, In (k, c) (_courses Sample.two_courses_subject) ->
       c_number (head c) = k
       /\ forall sec, In sec (sections c) ->
            PittSection_term sec = Some "2191"
            /\ PittSection_subject sec = Some "CS"
            /\ PittSection_course_number sec = Some k.
Proof.
  assert (Hp : PittSubject_parse_webpage (PittSubject_init "CS" "2191")
                 "two_courses" = Ok Sample.two_courses_subject)
    by (vm_compute; reflexivity).
  destruct (parse_back_references "CS" "2191" "two_courses"
              Sample.two_courses_subject Hp) as (_ & _ & Hall).
  split; [exact Hp|].
  intros k c Hin. destruct (Hall k c Hin) as (Hn & _ & _ & Hsec).
  split; [exact Hn|]. intros sec Hs.
  destruct (Hsec sec Hs) as (H1 & H2 & H3 & _). auto.
Defined.

Lemma parse_section_total_witness :
  total_sections (_courses Sample.two_courses_subject) = 3.
Proof.
  assert (Hp : PittSubject_parse_webpage (PittSubject_init "CS" "2191")
                 "two_courses" = Ok Sample.two_courses_subject)
    by (vm_compute; reflexivity).
  rewrite (parse_section_total (env := Sample.env) "CS" "2191" "two_courses"
             Sample.two_courses Sample.two_courses_subject eq_refl Hp).
  reflexivity.
Defined.

Lemma course_parse_appends_witness :
  PittCourse_parse_webpage Sample.lone_course "two_courses"
    = Ok Sample.lone_course_parsed
  /\ exists new,
      sections Sample.lone_course_parsed = new
      /\ map url new = ["/s/101"; "/s/102"; "/s/103"].
Proof.
  assert (Hp : PittCourse_parse_webpage Sample.lone_course "two_courses"
               = Ok Sample.lone_course_parsed) by (vm_compute; reflexivity).
  destruct (course_parse_appends (env := Sample.env) Sample.lone_course
              Sample.lone_course_parsed "two_courses" Sample.two_courses
              eq_refl Hp) as (_ & new & Hs & Hu & _).
  split; [exact Hp|]. exists new. split; [exact Hs | exact Hu].
Defined.

Lemma section_parse_last_link_witness :
  PittSection_parse_webpage Sample.lone_section "one_section"
    = Ok Sample.lone_section_parsed
  /\ url Sample.lone_section_parsed = "/s/105"
  /\ _extra Sample.lone_section_parsed = None.
Proof.
  assert (Hp : PittSection_parse_webpage Sample.lone_section "one_section"
               = Ok Sample.lone_section_parsed) by (vm_compute; reflexivity).
  destruct (section_parse_last_link (env := Sample.env) Sample.lone_section
              Sample.lone_section_parsed "one_section" Sample.one_section
              eq_refl Hp) as (_ & _ & _ & He & Hlast).
  split; [exact Hp|]. split; [|exact He].
  cbn in Hlast. destruct Hlast as [Hu _]. now inversion Hu.
Defined.

Lemma extra_details_uncached_witness :
  extra_details Sample.lone_section Sample.world0
    = (Ok Sample.lone_extra, Sample.lone_section_cached, Sample.world_after_read)
  /\ requests Sample.world_after_read = ["/s/101"].
Proof.
  assert (H : extra_details Sample.lone_section Sample.world0
              = (Ok Sample.lone_extra, Sample.lone_section_cached,
                 Sample.world_after_read)) by (vm_compute; reflexivity).
  destruct (extra_details_uncached Sample.lone_section Sample.lone_section_cached
              Sample.world0 Sample.world_after_read (Ok Sample.lone_extra)
              eq_refl H) as [Hlog _].
  split; [exact H | exact Hlog].
Defined.

Lemma to_dict_extra_requests_witness :
  PittSubject_to_dict true Sample.two_courses_subject Sample.world0
    = (Ok Sample.two_courses_dict, Sample.two_courses_cached,
       Sample.world_after_dict)
  /\ requests Sample.world_after_dict = ["/s/101"; "/s/102"; "/s/103"]
  /\ pending_items (_courses Sample.two_courses_cached) = [].
Proof.
  assert (H : PittSubject_to_dict true Sample.two_courses_subject Sample.world0
              = (Ok Sample.two_courses_dict, Sample.two_courses_cached,
                 Sample.world_after_dict)) by (vm_compute; reflexivity).
  destruct (to_dict_extra_requests Sample.two_courses_subject
              Sample.two_courses_cached Sample.world0 Sample.world_after_dict
              Sample.two_courses_dict H) as (Hlog & Hp & _).
  split; [exact H|]. split; [exact Hlog | exact Hp].
Defined.

Lemma queries_validate_first_witness :
  get_term_courses (PyStr "2192") "CS" Sample.net0
    = (Raise ValueError, Sample.net0)
  /\ (Sample.net0 = Sample.net0
      \/ exists t s, _validate_term (PyStr "2192") = Ok t
                     /\ _validate_subject "CS" = Ok s
                     /\ (sent Sample.net0 = sent Sample.net0 ++ [GET CLASS_SEARCH_URL]
                         \/ exists token,
                              sent Sample.net0
                              = sent Sample.net0
                                ++ search_requests token t s "" (PyStr ""))).
Proof.
  assert (H : get_term_courses (PyStr "2192") "CS" Sample.net0
              = (Raise ValueError, Sample.net0)) by reflexivity.
  destruct (queries_validate_first (PyStr "2192") "CS" PyNone PyNone Sample.net0)
    as (Hq & _ & _).
  split; [exact H | exact (Hq _ _ H)].
Defined.

Lemma get_term_courses_result_witness :
  get_term_courses (PyInt 2191) "cs" Sample.net0
    = (Ok Sample.term_courses, Sample.net_after_term_courses)
  /\ subject Sample.term_courses = "CS"
  /\ term Sample.term_courses = "2191"
  /\ NoDup (courses Sample.term_courses)
  /\ sent Sample.net_after_term_courses
     = search_requests "token-1" "2191" "CS" "" (PyStr "").
Proof.
  assert (H : get_term_courses (PyInt 2191) "cs" Sample.net0
              = (Ok Sample.term_courses, Sample.net_after_term_courses))
    by (vm_compute; reflexivity).
  destruct (get_term_courses_result (PyInt 2191) "cs" Sample.net0
              Sample.net_after_term_courses Sample.term_courses H)
    as (t & s & jar & sv & token & text & Ht & Hup & _ & Hget & Htok & _
        & Hlog & _ & Hterm & Hs & Hnd).
  assert (Et : t = "2191") by (vm_compute in Ht; congruence).
  assert (Es : s = "CS") by (vm_compute in Hup; congruence).
  assert (Ej : jar = [("CSRFCookie", "token-1")])
    by (vm_compute in Hget; congruence).
  assert (Ek : token = "token-1")
    by (rewrite Ej in Htok; vm_compute in Htok; congruence).
  rewrite Et in *. rewrite Es in *. rewrite Ek in *.
  split; [exact H|]. split; [exact Hs|]. split; [exact Hterm|].
  split; [exact Hnd | exact Hlog].
Defined.

Lemma get_course_sections_result_witness :
  get_course_sections (PyStr "2191") "Cs" (PyInt 401) Sample.net0
    = (Ok Sample.course_sections, Sample.net_after_course_sections)
  /\ head Sample.course_sections
     = mkCourseHead None (Some "2191") (Some "CS") "0401".
Proof.
  assert (H : get_course_sections (PyStr "2191") "Cs" (PyInt 401) Sample.net0
              = (Ok Sample.course_sections, Sample.net_after_course_sections))
    by (vm_compute; reflexivity).
  destruct (get_course_sections_result (PyStr "2191") "Cs" (PyInt 401)
              Sample.net0 Sample.net_after_course_sections
              Sample.course_sections H)
    as (t & s & k & token & Ht & Hk & Hup & _ & Hh & _).
  split; [exact H|]. rewrite Hh. inversion Ht. inversion Hk. inversion Hup.
  reflexivity.
Defined.

Lemma get_section_details_result_witness :
  get_section_details (PyInt 2191) (PyInt 12345) Sample.net0
    = (Ok Sample.section_details, Sample.net_after_section_details)
  /\ PittSection_term Sample.section_details = Some "2191"
  /\ _extra Sample.section_details = None.
Proof.
  assert (H : get_section_details (PyInt 2191) (PyInt 12345) Sample.net0
              = (Ok Sample.section_details, Sample.net_after_section_details))
    by (vm_compute; reflexivity).
  destruct (get_section_details_result (PyInt 2191) (PyInt 12345) Sample.net0
              Sample.net_after_section_details Sample.section_details H)
    as (t & token & Ht & _ & _ & Hterm & He & _).
  split; [exact H|]. split; [|exact He]. rewrite Hterm. now inversion Ht.
Defined.

End Fixtures.
